(** * gdown: cached download

    A shallow embedding of [gdown/cached_download.py] and the properties of
    its cache-path derivation, checksum verification and download
    coordination.

    Python values are modelled as follows.
    - [str] is [string]; one character of the model is one character of the
      Python string.
    - The [md5] argument, which the code tests with [isinstance] and for
      truthiness, is a small tagged union [pyobj].
    - Exceptions are values of [exn]; a computation either returns or raises
      ([result]) and threads the observable state [world]: the file system,
      the two output streams, the supply of temporary names and the record of
      transport invocations.
    - The file system is a finite map from path strings to nodes.  Paths are
      compared literally, so the model speaks about normalised paths. *)

From Stdlib Require Import String Ascii List Bool Arith ZArith Lia.
From Stdlib Require Import DecimalString.
From stdpp Require Import base option gmap strings fin_maps.

Local Open Scope string_scope.
Local Open Scope list_scope.

(** String concatenation computes by [simpl] in this file. *)
#[local] Arguments String.append !s1 s2 : simpl nomatch.

(** ** Python strings *)

Module Str.

(** [c in s] for a one-character [c]. *)
Fixpoint contains (c : ascii) (s : string) : bool :=
  match s with
  | EmptyString => false
  | String a s' => if Ascii.eqb a c then true else contains c s'
  end.

(** [s.replace(old, new)] for a one-character pattern [old]: every
    occurrence is replaced, scanning from the left. *)
Fixpoint replace (old : ascii) (new : string) (s : string) : string :=
  match s with
  | EmptyString => EmptyString
  | String a s' =>
      if Ascii.eqb a old then new ++ replace old new s'
      else String a (replace old new s')
  end.

(** [s.startswith(t)]. *)
Fixpoint startswith (s t : string) : bool :=
  match t with
  | EmptyString => true
  | String b t' =>
      match s with
      | EmptyString => false
      | String a s' => Ascii.eqb a b && startswith s' t'
      end
  end.

(** [s.endswith(c)] for a one-character [c]. *)
Fixpoint endswith (s : string) (c : ascii) : bool :=
  match s with
  | EmptyString => false
  | String a EmptyString => Ascii.eqb a c
  | String _ s' => endswith s' c
  end.

(** [s == c * len(s)]: every character of [s] is [c]. *)
Fixpoint all_eq (c : ascii) (s : string) : bool :=
  match s with
  | EmptyString => true
  | String a s' => Ascii.eqb a c && all_eq c s'
  end.

(** [s.rstrip(c)] for a one-character [c]. *)
Fixpoint rstrip (c : ascii) (s : string) : string :=
  match s with
  | EmptyString => EmptyString
  | String a s' =>
      match rstrip c s' with
      | EmptyString => if Ascii.eqb a c then EmptyString else String a EmptyString
      | r => String a r
      end
  end.

(** Truthiness of a string: [bool(s)]. *)
Definition nonempty (s : string) : bool :=
  match s with EmptyString => false | _ => true end.

End Str.

(** ** [os.path] (posixpath) *)

Module osp.

Definition sep : ascii := "/"%char.

(** [i = p.rfind(sep) + 1; (p[:i], p[i:])]. *)
Fixpoint cut (p : string) : string * string :=
  match p with
  | EmptyString => (EmptyString, EmptyString)
  | String c p' =>
      let '(h, t) := cut p' in
      if Ascii.eqb c sep then (String c h, t)
      else match h with
           | EmptyString => (EmptyString, String c t)
           | _ => (String c h, t)
           end
  end.

(** [os.path.dirname]. *)
Definition dirname (p : string) : string :=
  let head := fst (cut p) in
  if Str.nonempty head && negb (Str.all_eq sep head)
  then Str.rstrip sep head else head.

(** [os.path.basename]. *)
Definition basename (p : string) : string := snd (cut p).

(** [os.path.join(a, b)]. *)
Definition join (a b : string) : string :=
  if Str.startswith b "/" then b
  else if negb (Str.nonempty a) || Str.endswith a sep then a ++ b
  else a ++ "/" ++ b.

End osp.

(** ** Cache path derivation (lines 14 and 76-83) *)

Section CachePath.

(** The value of [osp.expanduser("~")] in the running process. *)
Variable home : string.

Definition cache_root : string := osp.join home ".cache/gdown".

(** The chain of [replace] calls of lines 78-81. *)
Definition cache_name (url : string) : string :=
  Str.replace "?" "-QUESTION-"
    (Str.replace "=" "-EQUAL-"
       (Str.replace ":" "-COLON-"
          (Str.replace "/" "-SLASH-" url))).

(** The path assigned at line 83. *)
Definition cache_path (url : string) : string :=
  osp.join cache_root (cache_name url).

End CachePath.

(** The characters the derivation replaces. *)
Definition reserved : list ascii := ["/"; ":"; "="; "?"]%char.

(** ** Python values, exceptions and results *)

(** The objects the [md5] argument is exercised with: [None], a [str], or an
    object that is not a [str] (a [bool] stands for those). *)
Inductive pyobj :=
| PyNone
| PyStr (s : string)
| PyBool (b : bool).

(** [bool(o)]. *)
Definition truthy (o : pyobj) : bool :=
  match o with
  | PyNone => false
  | PyStr s => Str.nonempty s
  | PyBool b => b
  end.

(** [isinstance(o, str)]. *)
Definition is_str (o : pyobj) : bool :=
  match o with PyStr _ => true | _ => false end.

(** [len(o)] of a [str]; only evaluated behind [isinstance(o, str)]. *)
Definition py_len (o : pyobj) : nat :=
  match o with PyStr s => String.length s | _ => 0 end.

(** [format(o)] as used by an f-string. *)
Definition py_format (o : pyobj) : string :=
  match o with
  | PyNone => "None"
  | PyStr s => s
  | PyBool true => "True"
  | PyBool false => "False"
  end.

(** [s == o] for a [str] [s]. *)
Definition str_eq (s : string) (o : pyobj) : bool :=
  match o with PyStr t => String.eqb s t | _ => false end.

(** Exception classes.  [OtherException] is any further subclass of
    [Exception] (the transport's own errors); [KeyboardInterrupt] and
    [SystemExit] derive from [BaseException] only. *)
Inductive exn_class :=
| AttributeError
| ValueError
| AssertionError
| FileNotFoundError
| FileExistsError
| NotADirectoryError
| IsADirectoryError
| PermissionError
| ShutilError
| OtherException (name : string)
| KeyboardInterrupt
| SystemExit.

Record exn := Exn { exn_class_of : exn_class; exn_msg : string }.

(** [isinstance(e, OSError)]. *)
Definition is_OSError (e : exn) : bool :=
  match exn_class_of e with
  | FileNotFoundError | FileExistsError | NotADirectoryError
  | IsADirectoryError | PermissionError | ShutilError => true
  | _ => false
  end.

(** [isinstance(e, AssertionError)]. *)
Definition is_AssertionError (e : exn) : bool :=
  match exn_class_of e with AssertionError => true | _ => false end.

(** [isinstance(e, Exception)]. *)
Definition is_Exception (e : exn) : bool :=
  match exn_class_of e with
  | KeyboardInterrupt | SystemExit => false
  | _ => true
  end.

Inductive result (A : Type) :=
| Return (a : A)
| Raise (e : exn).
Arguments Return {A} a.
Arguments Raise {A} e.

(** ** The file system *)

Inductive node :=
| File (content : string)
| Dir.

Abbreviation fsmap := (gmap string node).

Module FS.

(** A path made of separators only names the root directory, which always
    exists. *)
Definition is_root (p : string) : bool :=
  Str.nonempty p && Str.all_eq osp.sep p.

Definition stat (m : fsmap) (p : string) : option node :=
  if is_root p then Some Dir else m !! p.

(** [os.path.exists]. *)
Definition exists_ (m : fsmap) (p : string) : bool :=
  match stat m p with Some _ => true | None => false end.

(** [os.path.isdir]. *)
Definition isdir (m : fsmap) (p : string) : bool :=
  match stat m p with Some Dir => true | _ => false end.

Definition isfile (m : fsmap) (p : string) : bool :=
  match stat m p with Some (File _) => true | _ => false end.

(** [k] lies strictly inside directory [d]. *)
Definition inside (d k : string) : bool :=
  Str.startswith k (d ++ "/")%string.

(** [k] is [d] or lies inside it. *)
Definition under (d k : string) : bool := String.eqb k d || inside d k.

(** The directory containing [p] exists; the empty name is the current
    directory. *)
Definition parent_isdir (m : fsmap) (p : string) : bool :=
  match osp.dirname p with
  | EmptyString => true
  | d => isdir m d
  end.

(** The prefixes of [s] that end just before a separator, shortest first,
    each prepended with [acc]. *)
Fixpoint cuts (acc s : string) : list string :=
  match s with
  | EmptyString => []
  | String c s' =>
      (if Ascii.eqb c osp.sep then [acc] else [])
        ++ cuts (acc ++ String c EmptyString)%string s'
  end.

(** The proper ancestor directories of [p] other than the root and the
    current directory. *)
Definition ancestors (p : string) : list string :=
  List.filter (fun a => Str.nonempty a && negb (Str.endswith a osp.sep))
              (cuts "" p).

(** [open(p, "rb").read()]. *)
Definition read (m : fsmap) (p : string) : result string :=
  match stat m p with
  | Some (File c) => Return c
  | Some Dir => Raise (Exn IsADirectoryError p)
  | None => Raise (Exn FileNotFoundError p)
  end.

(** [os.makedirs(name)] with [exist_ok=False]: creates [name] and every
    missing ancestor. *)
Definition makedirs (name : string) (m : fsmap) : result unit * fsmap :=
  if negb (Str.nonempty name) then (Raise (Exn FileNotFoundError name), m)
  else if exists_ m name then (Raise (Exn FileExistsError name), m)
  else if existsb (isfile m) (ancestors name)
  then (Raise (Exn NotADirectoryError name), m)
  else (Return tt,
        fold_right (fun a acc => <[a := Dir]> acc) m (name :: ancestors name)).

(** The name [tempfile] makes of a random draw: the prefix [tmp] and a
    random part, written here as a number. *)
Definition tmp_name (n : nat) : string :=
  "tmp" ++ NilEmpty.string_of_uint (Nat.to_uint n).

(** The first candidate name that is free in directory [dir], and the
    draws left after it. *)
Fixpoint pick_fresh (dir : string) (m : fsmap) (draws : list nat)
  : option (string * list nat) :=
  match draws with
  | [] => None
  | n :: rest =>
      let d := osp.join dir (tmp_name n) in
      if exists_ m d then pick_fresh dir m rest else Some (d, rest)
  end.

(** [shutil.rmtree(d)]. *)
Definition rmtree (d : string) (m : fsmap) : result unit * fsmap :=
  match stat m d with
  | Some Dir =>
      (Return tt, filter (fun kv => under d (fst kv) = false) m)
  | Some (File _) => (Raise (Exn NotADirectoryError d), m)
  | None => (Raise (Exn FileNotFoundError d), m)
  end.

(** Re-root every entry under [src] at [dst]. *)
Definition reroot (src dst : string) (m : fsmap) : fsmap :=
  list_to_map
    (List.map
       (fun kv =>
          if under src (fst kv)
          then ((dst ++ String.substring (String.length src)
                                         (String.length (fst kv)) (fst kv))%string,
                snd kv)
          else kv)
       (map_to_list m)).

(** [shutil.move(src, dst)]: a rename; into [dst] when that is a
    directory.  A failing move changes nothing. *)
Definition move (src dst : string) (m : fsmap) : result unit * fsmap :=
  match stat m src with
  | None => (Raise (Exn FileNotFoundError src), m)
  | Some n =>
      let into := isdir m dst in
      let real_dst :=
        if into then osp.join dst (osp.basename (Str.rstrip osp.sep src))
        else dst in
      if into && exists_ m real_dst
      then (Raise (Exn ShutilError real_dst), m)
      else if negb (Str.nonempty real_dst) || negb (parent_isdir m real_dst)
      then (Raise (Exn FileNotFoundError real_dst), m)
      else
        match n with
        | File c => (Return tt, <[real_dst := File c]> (delete src m))
        | Dir =>
            if under src real_dst
            then (Raise (Exn ShutilError real_dst), m)
            else if exists_ m real_dst
            then (Raise (Exn FileExistsError real_dst), m)
            else (Return tt, reroot src real_dst m)
        end
  end.

End FS.

(** ** The observable state and the monad of effects *)

Definition kwargs := list (string * pyobj).

Record world := World {
  fs : fsmap;
  (** lines printed to [sys.stdout], oldest first *)
  stdout : list string;
  (** lines printed to [sys.stderr], oldest first *)
  stderr : list string;
  (** the random draws [tempfile] will make *)
  tmp_names : list nat;
  (** the calls made to the download transport, oldest first *)
  transport_log : list (option string * string);
}.

Definition set_fs (m : fsmap) (w : world) : world :=
  World m (stdout w) (stderr w) (tmp_names w) (transport_log w).

Definition M (A : Type) : Type := world -> result A * world.

Definition ret {A} (a : A) : M A := fun w => (Return a, w).

Definition raise {A} (e : exn) : M A := fun w => (Raise e, w).

Definition bind {A B} (m : M A) (k : A -> M B) : M B :=
  fun w =>
    match m w with
    | (Return a, w') => k a w'
    | (Raise e, w') => (Raise e, w')
    end.

Declare Scope py_scope.
Delimit Scope py_scope with py.
Notation "'let*' x ':=' m 'in' k" := (bind m (fun x => k))
  (at level 10, x name, m at level 100, k at level 200) : py_scope.
Notation "m '>>' k" := (bind m (fun _ => k))
  (at level 90, right associativity) : py_scope.
Local Open Scope py_scope.

(** [try: body except C as e: handler(e)], where [catches] decides
    [isinstance(e, C)]. *)
Definition try_except {A} (body : M A) (catches : exn -> bool)
           (handler : exn -> M A) : M A :=
  fun w =>
    match body w with
    | (Raise e, w') => if catches e then handler e w' else (Raise e, w')
    | r => r
    end.

(** [if c: body]. *)
Definition when (c : bool) (body : M unit) : M unit :=
  if c then body else ret tt.

(** Run a file-system primitive on the world's file system. *)
Definition on_fs {A} (f : fsmap -> result A * fsmap) : M A :=
  fun w => let '(r, m) := f (fs w) in (r, set_fs m w).

(** Evaluate a read-only file-system query. *)
Definition ask_fs {A} (f : fsmap -> A) : M A :=
  fun w => (Return (f (fs w)), w).

(** The world after [lines] were written to [sys.stdout]. *)
Definition put_stdout (lines : list string) (w : world) : world :=
  World (fs w) (stdout w ++ lines) (stderr w) (tmp_names w) (transport_log w).

(** The world after [lines] were written to [sys.stderr]. *)
Definition put_stderr (lines : list string) (w : world) : world :=
  World (fs w) (stdout w) (stderr w ++ lines) (tmp_names w) (transport_log w).

(** The world after [lines] were printed unless [quiet] is set. *)
Definition told (quiet : bool) (lines : list string) (w : world) : world :=
  if quiet then w else put_stdout lines w.

(** [print(s)]. *)
Definition print (s : string) : M unit :=
  fun w => (Return tt, put_stdout [s] w).

(** [print(s, file=sys.stderr)]. *)
Definition print_err (s : string) : M unit :=
  fun w => (Return tt, put_stderr [s] w).

(** [tempfile.mkdtemp(dir=dir)]: a new directory [dir/tmpXXXX] under an
    existing directory, named by the first free candidate. *)
Definition mkdtemp (dir : string) : M string :=
  fun w =>
    if FS.isdir (fs w) dir then
      match FS.pick_fresh dir (fs w) (tmp_names w) with
      | Some (d, rest) =>
          (Return d,
           World (<[d := Dir]> (fs w)) (stdout w) (stderr w) rest
                 (transport_log w))
      | None =>
          (Raise (Exn FileExistsError dir),
           World (fs w) (stdout w) (stderr w) [] (transport_log w))
      end
    else (Raise (Exn FileNotFoundError dir), w).

(** [with filelock.FileLock(lock_path): body].  Executions are sequential
    here, so holding the lock has no observable effect. *)
Definition with_FileLock {A} (lock_path : string) (body : M A) : M A := body.

(** ** [hashlib] *)

Class Hashlib := {
  hash_state : Type;
  (** [hashlib.md5()] *)
  md5_new : hash_state;
  (** [hash.update(block)] *)
  md5_update : hash_state -> string -> hash_state;
  (** [hash.hexdigest()] *)
  md5_hexdigest : hash_state -> string;
}.

(** The blocks [f.read(blocksize)] yields until it returns [b""]. *)
Fixpoint read_blocks (fuel blocksize : nat) (data : string) : list string :=
  match fuel with
  | 0 => []
  | S fuel' =>
      match String.substring 0 blocksize data with
      | EmptyString => []
      | block =>
          block :: read_blocks fuel' blocksize
                     (String.substring blocksize (String.length data) data)
      end
  end.

Definition newline : string := String (Ascii.ascii_of_nat 10) EmptyString.

(** ** MD5 (RFC 1321), the algorithm behind [hashlib.md5] *)

Module MD5.

Local Open Scope Z_scope.

(** Reduction of a sum to 32 bits. *)
Definition wrap (x : Z) : Z := Z.land x 0xffffffff.

Definition rotl (x c : Z) : Z :=
  wrap (Z.lor (Z.shiftl x c) (Z.shiftr x (32 - c))).

Definition lnot32 (x : Z) : Z := Z.lxor x 0xffffffff.

Definition K : list Z :=
  [ 0xd76aa478; 0xe8c7b756; 0x242070db; 0xc1bdceee;
    0xf57c0faf; 0x4787c62a; 0xa8304613; 0xfd469501;
    0x698098d8; 0x8b44f7af; 0xffff5bb1; 0x895cd7be;
    0x6b901122; 0xfd987193; 0xa679438e; 0x49b40821;
    0xf61e2562; 0xc040b340; 0x265e5a51; 0xe9b6c7aa;
    0xd62f105d; 0x02441453; 0xd8a1e681; 0xe7d3fbc8;
    0x21e1cde6; 0xc33707d6; 0xf4d50d87; 0x455a14ed;
    0xa9e3e905; 0xfcefa3f8; 0x676f02d9; 0x8d2a4c8a;
    0xfffa3942; 0x8771f681; 0x6d9d6122; 0xfde5380c;
    0xa4beea44; 0x4bdecfa9; 0xf6bb4b60; 0xbebfbc70;
    0x289b7ec6; 0xeaa127fa; 0xd4ef3085; 0x04881d05;
    0xd9d4d039; 0xe6db99e5; 0x1fa27cf8; 0xc4ac5665;
    0xf4292244; 0x432aff97; 0xab9423a7; 0xfc93a039;
    0x655b59c3; 0x8f0ccc92; 0xffeff47d; 0x85845dd1;
    0x6fa87e4f; 0xfe2ce6e0; 0xa3014314; 0x4e0811a1;
    0xf7537e82; 0xbd3af235; 0x2ad7d2bb; 0xeb86d391 ].

Definition shifts : list Z :=
  [ 7; 12; 17; 22; 7; 12; 17; 22; 7; 12; 17; 22; 7; 12; 17; 22;
    5; 9; 14; 20; 5; 9; 14; 20; 5; 9; 14; 20; 5; 9; 14; 20;
    4; 11; 16; 23; 4; 11; 16; 23; 4; 11; 16; 23; 4; 11; 16; 23;
    6; 10; 15; 21; 6; 10; 15; 21; 6; 10; 15; 21; 6; 10; 15; 21 ].

Record regs := Regs { ra : Z; rb : Z; rc : Z; rd : Z }.

Definition init : regs :=
  Regs 0x67452301 0xefcdab89 0x98badcfe 0x10325476.

(** One of the 64 operations on the words [m] of a block. *)
Definition step (m : list Z) (r : regs) (i : nat) : regs :=
  let '(Regs a b c d) := r in
  let '(f, g) :=
    if (i <? 16)%nat then
      (Z.lor (Z.land b c) (Z.land (lnot32 b) d), i)
    else if (i <? 32)%nat then
      (Z.lor (Z.land d b) (Z.land (lnot32 d) c), ((5 * i + 1) mod 16)%nat)
    else if (i <? 48)%nat then
      (Z.lxor b (Z.lxor c d), ((3 * i + 5) mod 16)%nat)
    else
      (Z.lxor c (Z.lor b (lnot32 d)), ((7 * i) mod 16)%nat) in
  let f := wrap (f + a + nth i K 0 + nth g m 0) in
  Regs d (wrap (b + rotl f (nth i shifts 0))) b c.

(** Little-endian 32-bit words of a list of bytes. *)
Fixpoint words (bytes : list Z) : list Z :=
  match bytes with
  | b0 :: b1 :: b2 :: b3 :: rest =>
      (b0 + Z.shiftl b1 8 + Z.shiftl b2 16 + Z.shiftl b3 24) :: words rest
  | _ => []
  end.

Definition compress (r : regs) (block : list Z) : regs :=
  let r' := fold_left (step (words block)) (seq 0 64) r in
  Regs (wrap (ra r + ra r')) (wrap (rb r + rb r'))
       (wrap (rc r + rc r')) (wrap (rd r + rd r')).

Fixpoint blocks (fuel : nat) (bytes : list Z) : list (list Z) :=
  match fuel, bytes with
  | S fuel', _ :: _ => firstn 64 bytes :: blocks fuel' (skipn 64 bytes)
  | _, _ => []
  end.

Definition le_bytes (n : nat) (x : Z) : list Z :=
  map (fun i => Z.land (Z.shiftr x (8 * Z.of_nat i)) 0xff) (seq 0 n).

Definition pad (msg : list Z) : list Z :=
  let len := length msg in
  msg ++ [0x80] ++ repeat 0 ((119 - len mod 64) mod 64)%nat
      ++ le_bytes 8 (8 * Z.of_nat len).

Definition hex_digit (x : Z) : ascii :=
  nth (Z.to_nat x)
      (list_ascii_of_string "0123456789abcdef") "0"%char.

Definition hex_byte (x : Z) : string :=
  String (hex_digit (Z.shiftr x 4)) (String (hex_digit (Z.land x 0xf)) "").

Definition bytes_of (s : string) : list Z :=
  map (fun c => Z.of_nat (nat_of_ascii c)) (list_ascii_of_string s).

Definition digest (s : string) : string :=
  let padded := pad (bytes_of s) in
  let r := fold_left compress (blocks (length padded) padded) init in
  String.concat ""
    (map hex_byte
         (le_bytes 4 (ra r) ++ le_bytes 4 (rb r)
            ++ le_bytes 4 (rc r) ++ le_bytes 4 (rd r))).

End MD5.

(** [hashlib.md5]: the state is the data fed so far. *)
Instance hashlib_md5 : Hashlib := {|
  hash_state := string;
  md5_new := EmptyString;
  md5_update := String.append;
  md5_hexdigest := MD5.digest;
|}.

(** ** The module [gdown.cached_download] *)

(** The default of line 24. *)
Definition default_blocksize : nat := 2 ^ 16.
#[global] Opaque default_blocksize.

(** The text of the [AssertionError] of lines 46-48. *)
Definition mismatch_message (actual expected : string) : string :=
  "MD5 doesn't match:" ++ newline ++ "actual: " ++ actual
    ++ newline ++ "expected: " ++ expected.

(** The transport [gdown.download.download(url, output, quiet, **kwargs)]:
    it acts on the file system and returns or raises. *)
Definition transport : Type :=
  option string -> string -> bool -> kwargs -> fsmap -> result unit * fsmap.

(** A [postprocess] callable, applied to the final path. *)
Definition postprocess_fn : Type := string -> fsmap -> result unit * fsmap.

Section CachedDownload.

Context `{Hashlib}.

(** [osp.expanduser("~")] and the imported [download]. *)
Variable home : string.
Variable download : transport.

(** Lines 14-19, run when the module is imported. *)
Definition import_module : M unit :=
  let* found := ask_fs (fun m => FS.exists_ m (cache_root home)) in
  if found then ret tt
  else try_except (on_fs (FS.makedirs (cache_root home))) is_OSError
                  (fun _ => ret tt).

(** Lines 22-30. *)
Definition md5sum (filename : string) (blocksize : option nat) : M string :=
  let blocksize :=
    match blocksize with None => default_blocksize | Some b => b end in
  let hash := md5_new in
  let* data := ask_fs (fun m => FS.read m filename) in
  match data with
  | Raise e => raise e
  | Return data =>
      let hash :=
        fold_left md5_update
                  (read_blocks (String.length data) blocksize data) hash in
      ret (md5_hexdigest hash)
  end.

(** Lines 33-48. *)
Definition assert_md5sum (filename : string) (md5 : pyobj) (quiet : bool)
  : M bool :=
  if negb (is_str md5 && Nat.eqb (py_len md5) 32) then
    raise (Exn ValueError ("MD5 must be 32 chars: " ++ py_format md5))
  else
    when (negb quiet) (print ("Computing MD5: " ++ filename)) >>
    let* md5_actual := md5sum filename None in
    if str_eq md5_actual md5 then
      when (negb quiet) (print ("MD5 matches: " ++ filename)) >>
      ret true
    else
      raise (Exn AssertionError
                 ("MD5 doesn't match:" ++ newline ++ "actual: " ++ md5_actual
                    ++ newline ++ "expected: " ++ py_format md5)).

(** Lines 76-83: the destination path. *)
Definition resolve_path (url path : option string) : M string :=
  match path with
  | None =>
      match url with
      | Some url => ret (cache_path home url)
      | None =>
          raise (Exn AttributeError
                     "'NoneType' object has no attribute 'replace'")
      end
  | Some path => ret path
  end.

(** Lines 86-97: [Some path] stands for [return path], [None] for falling
    through to the download. *)
Definition check_existence (path : string) (md5 : pyobj) (quiet : bool)
  : M (option string) :=
  let* found := ask_fs (fun m => FS.exists_ m path) in
  if found then
    if negb (truthy md5) then
      when (negb quiet) (print ("File exists: " ++ path)) >>
      ret (Some path)
    else
      try_except
        (assert_md5sum path md5 quiet >> ret (Some path))
        is_AssertionError
        (fun e => print_err (exn_msg e) >> ret None)
  else ret None.

(** Line 114, with the call recorded. *)
Definition call_download (url : option string) (output : string)
           (quiet : bool) (kw : kwargs) : M unit :=
  fun w =>
    let '(r, m) := download url output quiet kw (fs w) in
    (r, World m (stdout w) (stderr w) (tmp_names w)
              (transport_log w ++ [(url, output)])).

(** Lines 107-116: the body of the [try] statement. *)
Definition transfer (url : option string) (path temp_root : string)
           (quiet : bool) (kw : kwargs) : M unit :=
  let lock_path := osp.join (cache_root home) "_dl_lock" in
  let temp_path := osp.join temp_root "dl" in
  when (negb quiet)
       (let msg := "Cached Downloading" in
        let msg := if Str.nonempty path then (msg ++ ": " ++ path)%string
                   else (msg ++ "...")%string in
        print_err msg) >>
  call_download url temp_path quiet kw >>
  with_FileLock lock_path (on_fs (FS.move temp_path path)).

(** Lines 101-104: create the parent directory of the destination. *)
Definition ensure_parent (path : string) : M unit :=
  try_except (on_fs (FS.makedirs (osp.dirname path))) is_OSError
             (fun _ => ret tt).

(** Lines 100-105: the staging directory of this call. *)
Definition stage (path : string) : M string :=
  ensure_parent path >>
  mkdtemp (cache_root home).

(** Lines 100-119: staging, transfer and placement. *)
Definition fetch (url : option string) (path : string) (quiet : bool)
           (kw : kwargs) : M unit :=
  let* temp_root := stage path in
  try_except (transfer url path temp_root quiet kw) is_Exception
             (fun e => on_fs (FS.rmtree temp_root) >> raise e).

(** Lines 121-122: the verification after the download. *)
Definition verify (path : string) (md5 : pyobj) (quiet : bool) : M unit :=
  if truthy md5 then assert_md5sum path md5 quiet >> ret tt else ret tt.

(** Lines 121-128. *)
Definition finish (path : string) (md5 : pyobj) (quiet : bool)
           (postprocess : option postprocess_fn) : M string :=
  verify path md5 quiet >>
  match postprocess with
  | Some f => on_fs (f path)
  | None => ret tt
  end >>
  ret path.

(** Lines 51-128. *)
Definition cached_download (url path : option string) (md5 : pyobj)
           (quiet : bool) (postprocess : option postprocess_fn)
           (kw : kwargs) : M string :=
  let* path := resolve_path url path in
  let* hit := check_existence path md5 quiet in
  match hit with
  | Some path => ret path
  | None =>
      fetch url path quiet kw >>
      finish path md5 quiet postprocess
  end.

End CachedDownload.

(** ** Contracts of the collaborators *)

(** The transport, asked to write the file [dl] of directory [d], changes
    nothing but that file and entries strictly inside [d]. *)
Definition confined (download : transport) : Prop :=
  forall url d quiet kw m r m',
    download url (osp.join d "dl") quiet kw m = (r, m') ->
    forall k, k <> osp.join d "dl" -> FS.inside d k = false ->
              m' !! k = m !! k.

(** The postprocess action, if any, leaves the entry at [path] as it found
    it. *)
Definition keeps (path : string) (postprocess : option postprocess_fn)
  : Prop :=
  match postprocess with
  | None => True
  | Some f =>
      forall m r m', f path m = (r, m') -> FS.stat m' path = FS.stat m path
  end.

(** ** Test doubles: transports, postprocess actions and worlds *)

Module Demo.

Definition home : string := "/home/u".

(** A transport that writes [content] to its output file. *)
Definition serve (content : string) : transport :=
  fun _ output _ _ m => (Return tt, <[output := File content]> m).

(** A transport that raises [e], leaving [partial] behind when given. *)
Definition failing (e : exn) (partial : option string) : transport :=
  fun _ output _ _ m =>
    (Raise e,
     match partial with
     | Some c => <[output := File c]> m
     | None => m
     end).

(** A transport that returns without writing anything. *)
Definition silent : transport := fun _ _ _ _ m => (Return tt, m).

(** A postprocess action that truncates the file. *)
Definition truncate : postprocess_fn :=
  fun path m => (Return tt, <[path := File ""]> m).

(** A postprocess action that raises and touches nothing. *)
Definition broken : postprocess_fn :=
  fun path m => (Raise (Exn (OtherException "RuntimeError") "postprocess"), m).

(** The cache root exists and is empty. *)
Definition base_fs : fsmap :=
  <["/home" := Dir]>
    (<["/home/u" := Dir]>
       (<["/home/u/.cache" := Dir]> (<["/home/u/.cache/gdown" := Dir]> ∅))).

Definition w0 : world := World base_fs [] [] [1; 2] [].

(** The same with [content] stored at [path]. *)
Definition with_file (path content : string) : world :=
  set_fs (<[path := File content]> base_fs) w0.

Definition url : string := "https://host/uc?id=ABC123&export=download".

Definition md5_of_hello : string := "5d41402abc4b2a76b9719d911017c592".

End Demo.

(** ** Notions used by further properties *)

(** The substitutions of lines 78-81, in the order the code applies them. *)
Definition cache_rules : list (ascii * string) :=
  [("/"%char, "-SLASH-"); (":"%char, "-COLON-");
   ("="%char, "-EQUAL-"); ("?"%char, "-QUESTION-")].

(** Substitutions applied one after the other, the first rule first. *)
Definition apply_rules (rules : list (ascii * string)) (s : string) : string :=
  fold_left (fun acc r => Str.replace (fst r) (snd r) acc) rules s.

(** The law of a streaming hash: feeding two blocks one after the other is
    feeding their concatenation. *)
Definition streaming (H : Hashlib) : Prop :=
  forall (h : hash_state) (a b : string),
    md5_update (md5_update h a) b = md5_update h (a ++ b).

(** Two rules that may change places: the same rule, or rules for
    different characters whose tokens hold neither character. *)
Definition exchangeable (r r' : ascii * string) : Prop :=
  r = r' \/
  (fst r <> fst r' /\
   Str.contains (fst r') (snd r) = false /\
   Str.contains (fst r) (snd r') = false).

(** A computation leaves the component [f] of the state as it is. *)
Definition leaves {A B} (f : world -> B) (m : M A) : Prop :=
  forall w, f (snd (m w)) = f w.

(** * Properties *)

(** ** Sanity checks of the path functions *)

Example dirname_ex1 : osp.dirname "/a/b/c.txt" = "/a/b".
Proof. reflexivity. Qed.
Example dirname_ex2 : osp.dirname "model.bin" = "".
Proof. reflexivity. Qed.
Example dirname_ex3 : osp.dirname "//" = "//".
Proof. reflexivity. Qed.
Example dirname_ex4 : osp.dirname "/a//b" = "/a".
Proof. reflexivity. Qed.
Example basename_ex1 : osp.basename "/a/b/c.txt" = "c.txt".
Proof. reflexivity. Qed.
Example join_ex1 : osp.join "/home/u" ".cache/gdown" = "/home/u/.cache/gdown".
Proof. reflexivity. Qed.
Example join_ex2 : osp.join "/" ".cache/gdown" = "/.cache/gdown".
Proof. reflexivity. Qed.
Example rstrip_ex1 : Str.rstrip "/" "a/b//" = "a/b".
Proof. reflexivity. Qed.
Example md5_empty : MD5.digest "" = "d41d8cd98f00b204e9800998ecf8427e".
Proof. vm_compute. reflexivity. Qed.
Example md5_hello : MD5.digest "hello" = "5d41402abc4b2a76b9719d911017c592".
Proof. vm_compute. reflexivity. Qed.

(** ** Strings and paths *)

Section StringFacts.

Implicit Types (c d : ascii) (s t u : string).

Lemma append_assoc s t u : ((s ++ t) ++ u = s ++ (t ++ u))%string.
Proof. induction s; simpl; congruence. Qed.

Lemma length_append s t :
  String.length (s ++ t) = String.length s + String.length t.
Proof. induction s; simpl; congruence. Qed.

Lemma contains_app c s t :
  Str.contains c (s ++ t) = Str.contains c s || Str.contains c t.
Proof.
  induction s as [|a s IH]; simpl; [reflexivity|].
  destruct (Ascii.eqb a c); [reflexivity | exact IH].
Qed.

(** Replacing [c] by a token free of [c] leaves no [c]. *)
Lemma contains_replace_same c tok s :
  Str.contains c tok = false ->
  Str.contains c (Str.replace c tok s) = false.
Proof.
  intros Htok. induction s as [|a s IH]; simpl; [reflexivity|].
  destruct (Ascii.eqb a c) eqn:E.
  - rewrite contains_app, Htok, IH. reflexivity.
  - simpl. rewrite E. exact IH.
Qed.

(** Replacing [d] by a token free of [c] introduces no [c]. *)
Lemma contains_replace_other c d tok s :
  Str.contains c tok = false ->
  Str.contains c s = false ->
  Str.contains c (Str.replace d tok s) = false.
Proof.
  intros Htok. induction s as [|a s IH]; simpl; [reflexivity|].
  destruct (Ascii.eqb a c) eqn:E; [discriminate|]. intros Hs.
  destruct (Ascii.eqb a d).
  - rewrite contains_app, Htok, (IH Hs). reflexivity.
  - simpl. rewrite E. exact (IH Hs).
Qed.

Lemma endswith_app s t c :
  Str.nonempty t = true -> Str.endswith (s ++ t) c = Str.endswith t c.
Proof.
  intros Ht. induction s as [|a s IH]; simpl; [reflexivity|].
  rewrite IH. destruct (s ++ t)%string eqn:E; [|reflexivity].
  destruct s; simpl in E; [subst t|]; discriminate.
Qed.

Lemma endswith_contains s c :
  Str.endswith s c = true -> Str.contains c s = true.
Proof.
  induction s as [|a s IH]; simpl; [discriminate|].
  destruct s as [|b s].
  - intros ->. reflexivity.
  - intros Hs. rewrite (IH Hs). destruct (Ascii.eqb a c); reflexivity.
Qed.

Lemma nonempty_app_r s t :
  Str.nonempty t = true -> Str.nonempty (s ++ t) = true.
Proof. destruct s; simpl; auto. Qed.

(** [cut] splits its argument, and the tail holds no separator. *)
Lemma cut_app s : (fst (osp.cut s) ++ snd (osp.cut s))%string = s.
Proof.
  induction s as [|a s IH]; simpl; [reflexivity|].
  destruct (osp.cut s) as [h u]; simpl in *.
  destruct (Ascii.eqb a osp.sep); simpl; [congruence|].
  destruct h; simpl in *; congruence.
Qed.

Lemma cut_tail_no_sep s : Str.contains osp.sep (snd (osp.cut s)) = false.
Proof.
  induction s as [|a s IH]; simpl; [reflexivity|].
  destruct (osp.cut s) as [h u]; simpl in *.
  destruct (Ascii.eqb a osp.sep) eqn:E; simpl; [exact IH|].
  destruct h; simpl; [rewrite E|]; exact IH.
Qed.

Lemma cut_no_sep s :
  Str.contains osp.sep s = false -> osp.cut s = (EmptyString, s).
Proof.
  induction s as [|a s IH]; simpl; [reflexivity|].
  destruct (Ascii.eqb a osp.sep); [discriminate|].
  intros Hs. rewrite (IH Hs). reflexivity.
Qed.

(** Appending a name without separator extends the last component. *)
Lemma cut_app_no_sep s t :
  Str.contains osp.sep t = false ->
  osp.cut (s ++ t) = (fst (osp.cut s), (snd (osp.cut s) ++ t)%string).
Proof.
  intros Ht. induction s as [|a s IH]; simpl.
  - apply cut_no_sep, Ht.
  - rewrite IH. destruct (osp.cut s) as [h u]; simpl.
    destruct (Ascii.eqb a osp.sep); [reflexivity|].
    destruct h; reflexivity.
Qed.

Lemma cut_endswith_sep s :
  Str.endswith s osp.sep = true -> snd (osp.cut s) = EmptyString.
Proof.
  intros Hs. pose proof (cut_app s) as Happ.
  pose proof (cut_tail_no_sep s) as Hno.
  destruct (snd (osp.cut s)) as [|b u] eqn:E; [reflexivity|].
  rewrite <- Happ, endswith_app in Hs by reflexivity.
  apply endswith_contains in Hs. congruence.
Qed.

Lemma basename_join a n :
  Str.contains osp.sep n = false -> osp.basename (osp.join a n) = n.
Proof.
  intros Hn. unfold osp.basename, osp.join.
  assert (Str.startswith n "/" = false) as ->.
  { destruct n as [|b n]; [reflexivity|]. simpl in Hn |- *.
    destruct (Ascii.eqb b osp.sep) eqn:E; [discriminate|].
    unfold osp.sep in E. rewrite E. reflexivity. }
  destruct a as [|x a]; [simpl; rewrite cut_no_sep; auto|].
  change (negb (Str.nonempty (String x a))) with false.
  destruct (Str.endswith (String x a) osp.sep) eqn:E; cbn [orb].
  - rewrite cut_app_no_sep, cut_endswith_sep by assumption. reflexivity.
  - rewrite <- append_assoc, cut_app_no_sep by assumption.
    rewrite cut_endswith_sep; [reflexivity|].
    rewrite endswith_app; reflexivity.
Qed.

End StringFacts.

(** ** The cache path *)

Section CachePathFacts.

Variable home : string.

Lemma no_sep_not_startswith s :
  Str.contains osp.sep s = false -> Str.startswith s "/" = false.
Proof.
  destruct s as [|b s]; [reflexivity|]. simpl.
  unfold osp.sep. destruct (Ascii.eqb b "/"); [discriminate | reflexivity].
Qed.

(** The cache root is never empty and never ends in a separator. *)
Lemma cache_root_shape :
  Str.nonempty (cache_root home) = true /\
  Str.endswith (cache_root home) osp.sep = false.
Proof.
  unfold cache_root, osp.join.
  change (Str.startswith ".cache/gdown" "/") with false. cbv iota.
  destruct (negb (Str.nonempty home) || Str.endswith home osp.sep).
  - rewrite nonempty_app_r, endswith_app by reflexivity. split; reflexivity.
  - rewrite nonempty_app_r, endswith_app by reflexivity. split; reflexivity.
Qed.

(** No reserved character survives in the derived name. *)
Lemma cache_name_reserved_free url c :
  In c reserved -> Str.contains c (cache_name url) = false.
Proof.
  unfold reserved, cache_name.
  intros [<-|[<-|[<-|[<-|[]]]]].
  - do 3 (apply contains_replace_other; [reflexivity|]).
    apply contains_replace_same; reflexivity.
  - do 2 (apply contains_replace_other; [reflexivity|]).
    apply contains_replace_same; reflexivity.
  - apply contains_replace_other; [reflexivity|].
    apply contains_replace_same; reflexivity.
  - apply contains_replace_same; reflexivity.
Qed.

(** The derived path is the derived name, placed directly in the cache
    root. *)
Lemma cache_path_unfold url :
  cache_path home url = (cache_root home ++ "/" ++ cache_name url)%string.
Proof.
  unfold cache_path, osp.join.
  rewrite no_sep_not_startswith
    by (apply cache_name_reserved_free; simpl; auto).
  destruct cache_root_shape as [-> ->]. reflexivity.
Qed.

Lemma cache_path_basename url :
  osp.basename (cache_path home url) = cache_name url.
Proof.
  apply basename_join, cache_name_reserved_free. simpl; auto.
Qed.

End CachePathFacts.

(** C5, as the code has it.  For the URL
    [https://host/uc?id=ABC123&export=download] and no explicit destination,
    the path resolved by [cached_download] lies directly in the cache root
    and its basename is exactly
    [https-COLON--SLASH--SLASH-host-SLASH-uc-QUESTION-id-EQUAL-ABC123&export-EQUAL-download]:
    adjacent tokens meet with two dashes and [&] is kept.  The name is
    obtained by substituting [/], [:], [=], [?] in this order. *)
Theorem cache_path_of_example_url (home : string) :
  let url := "https://host/uc?id=ABC123&export=download" in
  let name :=
    "https-COLON--SLASH--SLASH-host-SLASH-uc-QUESTION-id-EQUAL-ABC123&export-EQUAL-download" in
  (forall w, resolve_path home (Some url) None w
             = (Return (cache_path home url), w)) /\
  cache_path home url = (cache_root home ++ "/" ++ name)%string /\
  osp.basename (cache_path home url) = name /\
  name = Str.replace "?" "-QUESTION-"
           (Str.replace "=" "-EQUAL-"
              (Str.replace ":" "-COLON-"
                 (Str.replace "/" "-SLASH-" url))).
Proof.
  intros url name.
  assert (cache_name url = name) as Hname by reflexivity.
  split; [reflexivity|]. split; [|split].
  - rewrite cache_path_unfold, Hname. reflexivity.
  - rewrite cache_path_basename. exact Hname.
  - reflexivity.
Qed.

(** C5, as stated, fails: with the home directory [/home/u] the basename of
    the resolved path is not the string given in the claim. *)
Lemma cache_path_of_example_url_differs :
  osp.basename (cache_path "/home/u" "https://host/uc?id=ABC123&export=download")
  <> "https-COLON---SLASH---SLASH-host-SLASH-uc-QUESTION-id-EQUAL-ABC123-EQUAL-export-EQUAL-download".
Proof. vm_compute. discriminate. Qed.



(** ** The hasher *)

Section Hasher.

Implicit Types (s : string) (n m fuel : nat).

Lemma substring_all s m :
  String.length s <= m -> String.substring 0 m s = s.
Proof.
  revert m. induction s as [|c s IH]; intros [|m] Hm; simpl in *;
    try reflexivity; [lia|].
  rewrite IH by lia. reflexivity.
Qed.

(** A block and what follows it make up the data. *)
Lemma substring_split n m s :
  String.length s <= m ->
  (String.substring 0 n s ++ String.substring n m s)%string = s.
Proof.
  revert s m. induction n as [|n IH]; intros s m Hm.
  - assert (String.substring 0 0 s = EmptyString) as -> by (by destruct s).
    by rewrite substring_all.
  - destruct s as [|c s]; simpl in *; [reflexivity|].
    rewrite IH by lia. reflexivity.
Qed.

Lemma substring_length_le n m s :
  String.length (String.substring n m s) <= String.length s - n.
Proof.
  revert s m. induction n as [|n IH]; intros s m.
  - revert m. induction s as [|c s IHs]; intros [|m]; simpl; try lia.
    specialize (IHs m). lia.
  - destruct s as [|c s]; simpl; [lia | apply IH].
Qed.



Lemma default_blocksize_pos : 0 < default_blocksize.
Proof. apply Nat.ltb_lt. vm_compute. reflexivity. Qed.





End Hasher.

(** ** The integrity verifier *)

Lemma put_stdout_app a b w :
  put_stdout b (put_stdout a w) = put_stdout (a ++ b) w.
Proof. unfold put_stdout; simpl. by rewrite app_assoc. Qed.

Section Verifier.

Context `{Hashlib}.

(** Hashing a file reads the file system and changes nothing. *)
Lemma md5sum_frame filename blocksize w r w0 :
  md5sum filename blocksize w0 = (r, w0) ->
  fs w = fs w0 ->
  md5sum filename blocksize w = (r, w).
Proof.
  unfold md5sum, bind, ask_fs. intros Hr ->.
  destruct (FS.read (fs w0) filename); unfold ret, raise in *; congruence.
Qed.

Lemma md5sum_state filename blocksize w :
  snd (md5sum filename blocksize w) = w.
Proof.
  unfold md5sum, bind, ask_fs.
  destruct (FS.read (fs w) filename); reflexivity.
Qed.

Lemma assert_md5sum_invalid filename md5 quiet w :
  is_str md5 && Nat.eqb (py_len md5) 32 = false ->
  assert_md5sum filename md5 quiet w
  = (Raise (Exn ValueError ("MD5 must be 32 chars: " ++ py_format md5)), w).
Proof. unfold assert_md5sum. intros ->. reflexivity. Qed.

Lemma assert_md5sum_match filename expected quiet w :
  String.length expected = 32 ->
  md5sum filename None w = (Return expected, w) ->
  assert_md5sum filename (PyStr expected) quiet w
  = (Return true,
     told quiet ["Computing MD5: " ++ filename; "MD5 matches: " ++ filename]%string w).
Proof.
  intros Hlen Hsum. unfold assert_md5sum. simpl. rewrite Hlen. simpl.
  unfold bind at 1. destruct quiet; simpl.
  - unfold bind. rewrite Hsum. simpl. rewrite String.eqb_refl. reflexivity.
  - unfold bind.
    rewrite (md5sum_frame _ _ _ _ _ Hsum) by reflexivity.
    simpl. rewrite String.eqb_refl. simpl.
    rewrite put_stdout_app. reflexivity.
Qed.

Lemma assert_md5sum_mismatch filename expected actual quiet w :
  String.length expected = 32 ->
  md5sum filename None w = (Return actual, w) ->
  actual <> expected ->
  assert_md5sum filename (PyStr expected) quiet w
  = (Raise (Exn AssertionError (mismatch_message actual expected)),
     told quiet ["Computing MD5: " ++ filename]%string w).
Proof.
  intros Hlen Hsum Hne. unfold assert_md5sum. simpl. rewrite Hlen. simpl.
  apply String.eqb_neq in Hne.
  unfold bind at 1. destruct quiet; simpl.
  - unfold bind. rewrite Hsum. simpl. rewrite Hne. reflexivity.
  - unfold bind.
    rewrite (md5sum_frame _ _ _ _ _ Hsum) by reflexivity.
    simpl. rewrite Hne. reflexivity.
Qed.

(** C6.  [assert_md5sum] raises [ValueError] at once, leaving the state
    as it is, whenever the expected digest is not a [str] of 32 characters.
    Given such a string and a file whose digest can be computed, it returns
    [True] exactly when the digest computed from the file is equal to the
    expected one, character for character; otherwise it raises an
    [AssertionError] whose message holds the actual and the expected
    digest. *)
Theorem assert_md5sum_spec filename md5 quiet w :
  (is_str md5 && Nat.eqb (py_len md5) 32 = false ->
   assert_md5sum filename md5 quiet w
   = (Raise (Exn ValueError ("MD5 must be 32 chars: " ++ py_format md5)),
      w)) /\
  (forall expected actual,
      md5 = PyStr expected ->
      String.length expected = 32 ->
      md5sum filename None w = (Return actual, w) ->
      (actual = expected ->
       assert_md5sum filename md5 quiet w
       = (Return true,
          told quiet ["Computing MD5: " ++ filename;
                      "MD5 matches: " ++ filename]%string w)) /\
      (actual <> expected ->
       assert_md5sum filename md5 quiet w
       = (Raise (Exn AssertionError
                     ("MD5 doesn't match:" ++ newline
                        ++ "actual: " ++ actual ++ newline
                        ++ "expected: " ++ expected)),
          told quiet ["Computing MD5: " ++ filename]%string w)) /\
      (fst (assert_md5sum filename md5 quiet w) = Return true
       <-> actual = expected)).
Proof.
  split; [apply assert_md5sum_invalid|].
  intros expected actual -> Hlen Hsum.
  split; [|split].
  - intros ->. by apply assert_md5sum_match.
  - intros Hne. by apply assert_md5sum_mismatch.
  - destruct (String.eqb_spec actual expected) as [->|Hne].
    + rewrite assert_md5sum_match by assumption. simpl. tauto.
    + rewrite (assert_md5sum_mismatch _ _ actual) by assumption. simpl.
      split; [discriminate | contradiction].
Qed.

End Verifier.

(** C6 on a file holding [hello]: a digest of 31 characters is rejected, the
    right digest is accepted, and the same digest in upper case is not. *)
Lemma assert_md5sum_spec_witness :
  let w := Demo.with_file "/data/model.bin" "hello" in
  assert_md5sum "/data/model.bin" (PyStr "5d41402abc4b2a76b9719d911017c59")
                false w
  = (Raise (Exn ValueError
                "MD5 must be 32 chars: 5d41402abc4b2a76b9719d911017c59"), w) /\
  fst (assert_md5sum "/data/model.bin"
                     (PyStr "5d41402abc4b2a76b9719d911017c592") false w)
  = Return true /\
  fst (assert_md5sum "/data/model.bin"
                     (PyStr "5D41402ABC4B2A76B9719D911017C592") false w)
  = Raise (Exn AssertionError
               ("MD5 doesn't match:" ++ newline
                  ++ "actual: 5d41402abc4b2a76b9719d911017c592" ++ newline
                  ++ "expected: 5D41402ABC4B2A76B9719D911017C592")).
Proof.
  intros w. split; [|split].
  - apply (proj1 (assert_md5sum_spec
                    "/data/model.bin"
                    (PyStr "5d41402abc4b2a76b9719d911017c59") false w)).
    reflexivity.
  - destruct (proj2 (assert_md5sum_spec
                       "/data/model.bin"
                       (PyStr "5d41402abc4b2a76b9719d911017c592") false w)
                    "5d41402abc4b2a76b9719d911017c592"
                    "5d41402abc4b2a76b9719d911017c592"
                    eq_refl eq_refl) as (Hok & _ & _).
    + vm_compute. reflexivity.
    + rewrite Hok; reflexivity.
  - destruct (proj2 (assert_md5sum_spec
                       "/data/model.bin"
                       (PyStr "5D41402ABC4B2A76B9719D911017C592") false w)
                    "5D41402ABC4B2A76B9719D911017C592"
                    "5d41402abc4b2a76b9719d911017c592"
                    eq_refl eq_refl) as (_ & Hbad & _).
    + vm_compute. reflexivity.
    + rewrite Hbad; [reflexivity | discriminate].
Defined.

(** ** Running the monad *)

Lemma bind_return {A B} (m : M A) (k : A -> M B) w a w' :
  m w = (Return a, w') -> bind m k w = k a w'.
Proof. unfold bind. intros ->. reflexivity. Qed.

Lemma bind_raise {A B} (m : M A) (k : A -> M B) w e w' :
  m w = (Raise e, w') -> bind m k w = (Raise e, w').
Proof. unfold bind. intros ->. reflexivity. Qed.

Lemma try_except_return {A} (body : M A) catches handler w a w' :
  body w = (Return a, w') -> try_except body catches handler w = (Return a, w').
Proof. unfold try_except. intros ->. reflexivity. Qed.

Lemma try_except_caught {A} (body : M A) catches handler w e w' :
  body w = (Raise e, w') -> catches e = true ->
  try_except body catches handler w = handler e w'.
Proof. unfold try_except. intros -> ->. reflexivity. Qed.

Lemma try_except_uncaught {A} (body : M A) catches handler w e w' :
  body w = (Raise e, w') -> catches e = false ->
  try_except body catches handler w = (Raise e, w').
Proof. unfold try_except. intros -> ->. reflexivity. Qed.

Lemma told_fs quiet lines w : fs (told quiet lines w) = fs w.
Proof. destruct quiet; reflexivity. Qed.

Lemma told_transport_log quiet lines w :
  transport_log (told quiet lines w) = transport_log w.
Proof. destruct quiet; reflexivity. Qed.

Lemma when_print quiet line w :
  when (negb quiet) (print line) w = (Return tt, told quiet [line] w).
Proof. destruct quiet; reflexivity. Qed.

(** ** The coordinator: cache hits *)

Section CacheHit.

Context `{Hashlib}.
Variable home : string.
Variable download : transport.

(** What [cached_download] does once the destination is known and the
    existence check has been made. *)
Lemma cached_download_hit url path md5 quiet pp kw w p w1 :
  resolve_path home url path w = (Return p, w) ->
  check_existence p md5 quiet w = (Return (Some p), w1) ->
  cached_download home download url path md5 quiet pp kw w = (Return p, w1).
Proof.
  intros Hp Hc. unfold cached_download.
  rewrite (bind_return _ _ _ _ _ Hp), (bind_return _ _ _ _ _ Hc).
  reflexivity.
Qed.

Lemma cached_download_miss url path md5 quiet pp kw w p w1 :
  resolve_path home url path w = (Return p, w) ->
  check_existence p md5 quiet w = (Return None, w1) ->
  cached_download home download url path md5 quiet pp kw w
  = (fetch home download url p quiet kw >> finish p md5 quiet pp) w1.
Proof.
  intros Hp Hc. unfold cached_download.
  rewrite (bind_return _ _ _ _ _ Hp), (bind_return _ _ _ _ _ Hc).
  reflexivity.
Qed.

Lemma check_existence_trusted p md5 quiet w :
  FS.exists_ (fs w) p = true ->
  truthy md5 = false ->
  check_existence p md5 quiet w
  = (Return (Some p), told quiet ["File exists: " ++ p]%string w).
Proof.
  intros Hex Hmd5. unfold check_existence, bind, ask_fs.
  rewrite Hex, Hmd5. simpl. rewrite when_print. reflexivity.
Qed.

Lemma check_existence_verified p s quiet w :
  FS.exists_ (fs w) p = true ->
  String.length s = 32 ->
  md5sum p None w = (Return s, w) ->
  check_existence p (PyStr s) quiet w
  = (Return (Some p),
     told quiet ["Computing MD5: " ++ p; "MD5 matches: " ++ p]%string w).
Proof.
  intros Hex Hlen Hsum. unfold check_existence, bind at 1, ask_fs.
  rewrite Hex. assert (truthy (PyStr s) = true) as ->.
  { destruct s; [discriminate | reflexivity]. }
  simpl. apply try_except_return.
  rewrite (bind_return _ _ _ _ _ (assert_md5sum_match _ _ _ _ Hlen Hsum)).
  reflexivity.
Qed.

(** C1.  When something exists at the destination path, resolved or given,
    and no checksum was supplied, the call returns that path at once; when a
    supplied checksum of 32 characters equals the digest computed from the
    file there, it returns that path at once too.  In both cases the state
    differs from the initial one by the lines printed only: the file system
    is the same and the transport has not been called. *)
Theorem cache_hit_returns_without_download url path md5 quiet pp kw w p :
  resolve_path home url path w = (Return p, w) ->
  FS.exists_ (fs w) p = true ->
  (truthy md5 = false ->
   cached_download home download url path md5 quiet pp kw w
   = (Return p, told quiet ["File exists: " ++ p]%string w)) /\
  (forall s,
      md5 = PyStr s -> String.length s = 32 ->
      md5sum p None w = (Return s, w) ->
      cached_download home download url path md5 quiet pp kw w
      = (Return p,
         told quiet ["Computing MD5: " ++ p; "MD5 matches: " ++ p]%string w)) /\
  (truthy md5 = false \/
   (exists s, md5 = PyStr s /\ String.length s = 32 /\
              md5sum p None w = (Return s, w)) ->
   exists w',
     cached_download home download url path md5 quiet pp kw w = (Return p, w') /\
     fs w' = fs w /\
     transport_log w' = transport_log w).
Proof.
  intros Hp Hex.
  assert (truthy md5 = false ->
          cached_download home download url path md5 quiet pp kw w
          = (Return p, told quiet ["File exists: " ++ p]%string w)) as Hnone.
  { intros Hmd5. eapply cached_download_hit; [exact Hp|].
    by apply check_existence_trusted. }
  assert (forall s,
             md5 = PyStr s -> String.length s = 32 ->
             md5sum p None w = (Return s, w) ->
             cached_download home download url path md5 quiet pp kw w
             = (Return p,
                told quiet ["Computing MD5: " ++ p;
                            "MD5 matches: " ++ p]%string w)) as Hsome.
  { intros s -> Hlen Hsum. eapply cached_download_hit; [exact Hp|].
    by apply check_existence_verified. }
  split; [exact Hnone|]. split; [exact Hsome|].
  intros [Hmd5|(s & Hs & Hlen & Hsum)].
  - eexists. split; [by apply Hnone|].
    by rewrite told_fs, told_transport_log.
  - eexists. split; [by eapply Hsome|].
    by rewrite told_fs, told_transport_log.
Qed.

End CacheHit.

(** C1 on a cache that already holds the file of the example URL: without
    a checksum, and with the right one, the path comes back although the
    transport would have served something else. *)
Lemma cache_hit_returns_without_download_witness :
  let p := cache_path Demo.home Demo.url in
  let w := Demo.with_file p "hello" in
  cached_download Demo.home (Demo.serve "other") (Some Demo.url) None
                  PyNone false None [] w
  = (Return p, told false ["File exists: " ++ p]%string w) /\
  cached_download Demo.home (Demo.serve "other") (Some Demo.url) None
                  (PyStr Demo.md5_of_hello) false None [] w
  = (Return p,
     told false ["Computing MD5: " ++ p; "MD5 matches: " ++ p]%string w).
Proof.
  intros p w.
  assert (resolve_path Demo.home (Some Demo.url) None w = (Return p, w))
    as Hp by reflexivity.
  assert (FS.exists_ (fs w) p = true) as Hex by (vm_compute; reflexivity).
  assert (md5sum p None w = (Return Demo.md5_of_hello, w)) as Hsum
    by (vm_compute; reflexivity).
  split.
  - destruct (cache_hit_returns_without_download
                Demo.home (Demo.serve "other") (Some Demo.url) None
                PyNone false None [] w p Hp Hex) as (Hnone & _ & _).
    exact (Hnone eq_refl).
  - destruct (cache_hit_returns_without_download
                Demo.home (Demo.serve "other") (Some Demo.url) None
                (PyStr Demo.md5_of_hello) false None [] w p Hp Hex)
      as (_ & Hsome & _).
    exact (Hsome Demo.md5_of_hello eq_refl eq_refl Hsum).
Defined.

(** ** The coordinator: verification and postprocessing *)

Lemma bind_inv_return {A B} (m : M A) (k : A -> M B) w b w' :
  bind m k w = (Return b, w') ->
  exists a w1, m w = (Return a, w1) /\ k a w1 = (Return b, w').
Proof.
  unfold bind. destruct (m w) as [[a|e] w1]; [eauto | discriminate].
Qed.

Lemma put_stderr_fs lines w : fs (put_stderr lines w) = fs w.
Proof. reflexivity. Qed.

Lemma on_fs_eq {A} (f : fsmap -> result A * fsmap) w r m :
  f (fs w) = (r, m) -> on_fs f w = (r, set_fs m w).
Proof. unfold on_fs. intros ->. reflexivity. Qed.

Section Verification.

Context `{Hashlib}.

Lemma md5sum_eq filename blocksize w :
  md5sum filename blocksize w = (fst (md5sum filename blocksize w), w).
Proof.
  rewrite <- (md5sum_state filename blocksize w) at 3.
  destruct (md5sum filename blocksize w); reflexivity.
Qed.

Lemma assert_md5sum_unreadable filename expected e quiet w :
  String.length expected = 32 ->
  md5sum filename None w = (Raise e, w) ->
  assert_md5sum filename (PyStr expected) quiet w
  = (Raise e, told quiet ["Computing MD5: " ++ filename]%string w).
Proof.
  intros Hlen Hsum. unfold assert_md5sum. simpl. rewrite Hlen. simpl.
  rewrite (bind_return _ _ _ _ _ (when_print _ _ _)).
  apply bind_raise, (md5sum_frame _ _ _ _ _ Hsum), told_fs.
Qed.

(** The verifier only prints. *)
Lemma assert_md5sum_fs filename md5 quiet w :
  fs (snd (assert_md5sum filename md5 quiet w)) = fs w.
Proof.
  destruct (is_str md5 && Nat.eqb (py_len md5) 32) eqn:Hok.
  - destruct md5 as [|s|]; try discriminate. simpl in Hok.
    apply Nat.eqb_eq in Hok.
    pose proof (md5sum_eq filename None w) as Hsum.
    destruct (fst (md5sum filename None w)) as [actual|e].
    + destruct (String.eqb_spec actual s) as [->|Hne].
      * rewrite assert_md5sum_match by assumption. apply told_fs.
      * rewrite (assert_md5sum_mismatch _ _ actual) by assumption.
        apply told_fs.
    + rewrite (assert_md5sum_unreadable _ _ e) by assumption. apply told_fs.
  - rewrite assert_md5sum_invalid by assumption. reflexivity.
Qed.

(** It returns only for a 32-character string equal to the digest of the
    file. *)
Lemma assert_md5sum_inv_return filename md5 quiet w b w' :
  assert_md5sum filename md5 quiet w = (Return b, w') ->
  exists s, md5 = PyStr s /\ String.length s = 32 /\
            md5sum filename None w = (Return s, w).
Proof.
  intros Hret.
  destruct (is_str md5 && Nat.eqb (py_len md5) 32) eqn:Hok.
  - destruct md5 as [|s|]; try discriminate. simpl in Hok.
    apply Nat.eqb_eq in Hok. exists s. split; [reflexivity|]. split; [exact Hok|].
    pose proof (md5sum_eq filename None w) as Hsum.
    destruct (fst (md5sum filename None w)) as [actual|e].
    + destruct (String.eqb_spec actual s) as [->|Hne]; [exact Hsum|].
      rewrite (assert_md5sum_mismatch _ _ actual) in Hret by assumption.
      discriminate.
    + rewrite (assert_md5sum_unreadable _ _ e) in Hret by assumption.
      discriminate.
  - rewrite assert_md5sum_invalid in Hret by assumption. discriminate.
Qed.

Lemma verify_fs path md5 quiet w :
  fs (snd (verify path md5 quiet w)) = fs w.
Proof.
  unfold verify. destruct (truthy md5); [|reflexivity].
  unfold bind. pose proof (assert_md5sum_fs path md5 quiet w) as Hfs.
  destruct (assert_md5sum path md5 quiet w) as [[b|e] w']; exact Hfs.
Qed.

(** A passed verification with a checksum means the digest is right. *)
Lemma verify_inv_return path md5 quiet w w' :
  truthy md5 = true ->
  verify path md5 quiet w = (Return tt, w') ->
  exists s, md5 = PyStr s /\ String.length s = 32 /\
            md5sum path None w = (Return s, w).
Proof.
  unfold verify. intros ->. intros Hret.
  apply bind_inv_return in Hret as (b & w1 & Hret & _).
  by eapply assert_md5sum_inv_return.
Qed.

(** What [finish] does after each outcome of the verification. *)
Lemma finish_verify_raises path md5 quiet pp w e w' :
  verify path md5 quiet w = (Raise e, w') ->
  finish path md5 quiet pp w = (Raise e, w').
Proof. intros Hv. unfold finish. by apply bind_raise. Qed.


Lemma finish_postprocess path md5 quiet f w w' r m :
  verify path md5 quiet w = (Return tt, w') ->
  f path (fs w') = (r, m) ->
  finish path md5 quiet (Some f) w
  = (match r with Return _ => Return path | Raise e => Raise e end,
     set_fs m w').
Proof.
  intros Hv Hf. unfold finish. rewrite (bind_return _ _ _ _ _ Hv).
  unfold bind. rewrite (on_fs_eq _ _ _ _ Hf). by destruct r as [[]|e].
Qed.

End Verification.

Section AfterPlacement.

Context `{Hashlib}.
Variable home : string.
Variable download : transport.


(** C7.  After the download and the move have succeeded, a supplied
    checksum of 32 characters that differs from the digest of the file now at
    the destination makes the call raise the [AssertionError] of
    [assert_md5sum]; nothing catches it, and the postprocess action is not
    run. *)
Theorem post_download_mismatch_propagates
        url path expected quiet pp kw w p w1 w2 actual :
  resolve_path home url path w = (Return p, w) ->
  check_existence p (PyStr expected) quiet w = (Return None, w1) ->
  fetch home download url p quiet kw w1 = (Return tt, w2) ->
  String.length expected = 32 ->
  md5sum p None w2 = (Return actual, w2) ->
  actual <> expected ->
  cached_download home download url path (PyStr expected) quiet pp kw w
  = (Raise (Exn AssertionError (mismatch_message actual expected)),
     told quiet ["Computing MD5: " ++ p]%string w2).
Proof.
  intros Hp Hc Hf Hlen Hsum Hne.
  rewrite (cached_download_miss _ _ _ _ _ _ _ _ _ _ _ Hp Hc).
  rewrite (bind_return _ _ _ _ _ Hf).
  apply finish_verify_raises. unfold verify.
  assert (truthy (PyStr expected) = true) as ->.
  { destruct expected; [discriminate | reflexivity]. }
  apply bind_raise. by apply assert_md5sum_mismatch.
Qed.

(** C9.  Once the download and the move have succeeded, nothing in
    [cached_download] removes or restores the destination.  If the
    verification raises, the call raises the same exception and the file
    system is the one the move produced.  If the postprocess action raises,
    the call raises the same exception and the file system is the one the
    action itself left; when the action did not touch the destination, the
    entry placed there is still the same. *)
Theorem placed_file_is_not_rolled_back
        url path md5 quiet pp kw w p w1 w2 :
  resolve_path home url path w = (Return p, w) ->
  check_existence p md5 quiet w = (Return None, w1) ->
  fetch home download url p quiet kw w1 = (Return tt, w2) ->
  (forall e w3,
      verify p md5 quiet w2 = (Raise e, w3) ->
      cached_download home download url path md5 quiet pp kw w = (Raise e, w3)
      /\ fs w3 = fs w2) /\
  (forall f e w3 m,
      pp = Some f ->
      verify p md5 quiet w2 = (Return tt, w3) ->
      f p (fs w2) = (Raise e, m) ->
      cached_download home download url path md5 quiet pp kw w
      = (Raise e, set_fs m w3)
      /\ fs (set_fs m w3) = m
      /\ (keeps p pp -> FS.stat (fs (set_fs m w3)) p = FS.stat (fs w2) p)).
Proof.
  intros Hp Hc Hf.
  rewrite (cached_download_miss _ _ _ _ _ _ _ _ _ _ _ Hp Hc).
  rewrite (bind_return _ _ _ _ _ Hf).
  split.
  - intros e w3 Hv. split; [by apply finish_verify_raises|].
    pose proof (verify_fs p md5 quiet w2) as Hfs. by rewrite Hv in Hfs.
  - intros f e w3 m -> Hv Hpp.
    pose proof (verify_fs p md5 quiet w2) as Hfs. rewrite Hv in Hfs.
    simpl in Hfs. rewrite <- Hfs in Hpp.
    split; [|split].
    + exact (finish_postprocess _ _ _ _ _ _ _ _ Hv Hpp).
    + reflexivity.
    + intros Hkeeps. simpl in Hkeeps |- *. rewrite <- Hfs.
      by eapply Hkeeps.
Qed.

End AfterPlacement.

(** ** The file system primitives *)

Section FileSystemFacts.

Implicit Types (m : fsmap) (p d k src dst : string).


Lemma set_fs_same w : set_fs (fs w) w = w.
Proof. by destruct w. Qed.


(** A failing move leaves the file system as it was. *)
Lemma move_raise src dst m e m' :
  FS.move src dst m = (Raise e, m') -> m' = m.
Proof.
  unfold FS.move. intros Hmv.
  repeat match type of Hmv with
         | context [match ?x with _ => _ end] => destruct x
         end; congruence.
Qed.

(** A successful move of a file to a destination that is not a directory
    puts the file there. *)
Lemma move_places_file src dst m m' c :
  FS.move src dst m = (Return tt, m') ->
  FS.stat m src = Some (File c) ->
  FS.isdir m dst = false ->
  m' !! dst = Some (File c).
Proof.
  unfold FS.move. intros Hmv Hsrc Hdst. rewrite Hsrc, Hdst in Hmv.
  simpl in Hmv.
  destruct (negb (Str.nonempty dst) || negb (FS.parent_isdir m dst));
    [discriminate|].
  injection Hmv as <-. apply lookup_insert_eq.
Qed.

Lemma makedirs_raise d m e m' :
  FS.makedirs d m = (Raise e, m') -> m' = m /\ is_OSError e = true.
Proof.
  unfold FS.makedirs. intros Hmk.
  repeat match type of Hmk with
         | context [if ?x then _ else _] => destruct x
         end; inversion Hmk; by subst.
Qed.

Lemma lookup_fold_insert_dir (l : list string) m k :
  fold_right (fun a acc => <[a := Dir]> acc) m l !! k
  = if bool_decide (k ∈ l) then Some Dir else m !! k.
Proof.
  induction l as [|a l IH]; simpl; [reflexivity|].
  destruct (decide (a = k)) as [->|Hne].
  - rewrite lookup_insert_eq, bool_decide_eq_true_2; [reflexivity | left].
  - rewrite lookup_insert_ne, IH by done.
    destruct (decide (k ∈ l)) as [Hin|Hnin].
    + rewrite !bool_decide_eq_true_2; [reflexivity | by right | done].
    + rewrite !bool_decide_eq_false_2; [reflexivity | | done].
      intros [->|?]%elem_of_cons; done.
Qed.

(** After a successful [makedirs] the directory exists. *)
Lemma makedirs_isdir d m m' :
  FS.makedirs d m = (Return tt, m') -> FS.isdir m' d = true.
Proof.
  unfold FS.makedirs. intros Hmk.
  repeat match type of Hmk with
         | context [if ?x then _ else _] => destruct x
         end; try discriminate. injection Hmk as <-.
  unfold FS.isdir, FS.stat. destruct (FS.is_root d); [reflexivity|].
  by rewrite lookup_insert_eq.
Qed.

(** Every cut of [s] is a proper prefix. *)
Lemma cuts_length acc s a :
  In a (FS.cuts acc s) -> String.length a < String.length acc + String.length s.
Proof.
  revert acc. induction s as [|c s IH]; intros acc; simpl; [tauto|].
  rewrite in_app_iff. intros [Hin|Hin].
  - destruct (Ascii.eqb c osp.sep); simpl in Hin; [|tauto].
    destruct Hin as [<-|[]]. lia.
  - apply IH in Hin. rewrite length_append in Hin. simpl in Hin. lia.
Qed.

(** [makedirs] touches no path longer than its argument. *)
Lemma makedirs_longer d m r m' k :
  FS.makedirs d m = (r, m') ->
  String.length d < String.length k -> m' !! k = m !! k.
Proof.
  unfold FS.makedirs. intros Hmk Hlen.
  repeat match type of Hmk with
         | context [if ?x then _ else _] => destruct x
         end; injection Hmk as <- <-; try reflexivity.
  rewrite lookup_insert_ne by (intros ->; lia).
  rewrite lookup_fold_insert_dir, bool_decide_eq_false_2; [reflexivity|].
  intros Hin.
  apply list_elem_of_In, filter_In in Hin as [Hin _].
  apply cuts_length in Hin. simpl in Hin. lia.
Qed.

End FileSystemFacts.

Section ParentDirectory.

Implicit Types (m : fsmap) (p d s : string).

Lemma cut_head_shape p :
  fst (osp.cut p) = EmptyString \/
  Str.endswith (fst (osp.cut p)) osp.sep = true.
Proof.
  induction p as [|a p IH]; simpl; [by left|].
  destruct (osp.cut p) as [h t]; simpl in *.
  destruct (Ascii.eqb a osp.sep) eqn:Ea; simpl.
  - right. destruct IH as [->|IH]; [exact Ea|].
    destruct h; [discriminate | exact IH].
  - destruct h as [|b h]; simpl; [by left|].
    right. destruct IH as [|IH]; [discriminate | exact IH].
Qed.

Lemma rstrip_length c s : String.length (Str.rstrip c s) <= String.length s.
Proof.
  induction s as [|a s IH]; simpl; [lia|].
  destruct (Str.rstrip c s); [destruct (Ascii.eqb a c)|]; simpl in *; lia.
Qed.

Lemma rstrip_shorter c s :
  Str.endswith s c = true ->
  String.length (Str.rstrip c s) < String.length s.
Proof.
  induction s as [|a s IH]; simpl; [discriminate|].
  destruct s as [|b s].
  - simpl. intros ->. simpl. lia.
  - intros Hs. specialize (IH Hs).
    destruct (Str.rstrip c (String b s));
      [destruct (Ascii.eqb a c)|]; simpl in *; lia.
Qed.

Lemma makedirs_return_inv d m m' :
  FS.makedirs d m = (Return tt, m') ->
  Str.nonempty d = true /\ FS.exists_ m d = false.
Proof.
  unfold FS.makedirs.
  destruct (Str.nonempty d); [|discriminate].
  destruct (FS.exists_ m d); [discriminate|]. done.
Qed.

(** The parent directory that can be created is a shorter path. *)
Lemma dirname_shorter p m m' :
  FS.makedirs (osp.dirname p) m = (Return tt, m') ->
  String.length (osp.dirname p) < String.length p.
Proof.
  intros [Hne Hex]%makedirs_return_inv.
  pose proof (cut_app p) as Happ. pose proof (cut_head_shape p) as Hshape.
  unfold FS.exists_, FS.stat, FS.is_root in Hex. rewrite Hne in Hex.
  unfold osp.dirname in *.
  destruct (Str.nonempty (fst (osp.cut p))
            && negb (Str.all_eq osp.sep (fst (osp.cut p)))) eqn:Hcond.
  - destruct Hshape as [Hempty|Hends].
    + rewrite Hempty in Hcond. discriminate.
    + apply rstrip_shorter in Hends.
      rewrite <- Happ at 2. rewrite length_append. lia.
  - rewrite Hne in Hcond. simpl in Hcond, Hex.
    apply negb_false_iff in Hcond. rewrite Hcond in Hex. discriminate.
Qed.

(** Creating the parent directory never touches the destination. *)
Lemma makedirs_dirname_keeps p m r m' :
  FS.makedirs (osp.dirname p) m = (r, m') -> m' !! p = m !! p.
Proof.
  intros Hmk. destruct r as [[]|e].
  - eapply makedirs_longer; [exact Hmk|]. by eapply dirname_shorter.
  - apply makedirs_raise in Hmk as [-> _]. reflexivity.
Qed.

End ParentDirectory.

(** ** The coordinator: staging *)

Section Staging.

Variable home : string.

(** [ensure_parent] returns whatever [os.makedirs] does. *)
Lemma ensure_parent_eq p w :
  ensure_parent p w
  = (Return tt,
     match FS.makedirs (osp.dirname p) (fs w) with
     | (Return _, m) => set_fs m w
     | (Raise _, _) => w
     end).
Proof.
  unfold ensure_parent.
  destruct (FS.makedirs (osp.dirname p) (fs w)) as [[[]|e] m] eqn:Hmk.
  - apply try_except_return, on_fs_eq, Hmk.
  - pose proof (makedirs_raise _ _ _ _ Hmk) as [-> HOS].
    rewrite (try_except_caught _ _ _ _ _ _ (on_fs_eq _ _ _ _ Hmk) HOS).
    by rewrite set_fs_same.
Qed.

Lemma ensure_parent_keeps p w :
  fs (snd (ensure_parent p w)) !! p = fs w !! p /\
  transport_log (snd (ensure_parent p w)) = transport_log w.
Proof.
  rewrite ensure_parent_eq. simpl.
  destruct (FS.makedirs (osp.dirname p) (fs w)) as [[[]|e] m] eqn:Hmk;
    [|done].
  split; [|reflexivity]. simpl. by eapply makedirs_dirname_keeps.
Qed.

(** C4, as the code has it.  During staging the parent directory of the
    destination is created with [os.makedirs].  When that succeeds the
    directory exists afterwards.  When it fails, whatever the reason
    (the directory or a file of that name exists, the name is empty, a
    component is not a directory), the failure is an [OSError], it is
    swallowed, the state is left as it was, and the call goes on to create
    the staging directory.  The handler swallows every [OSError] and lets
    any other exception through. *)
Theorem directory_creation_errors_are_swallowed p w :
  match FS.makedirs (osp.dirname p) (fs w) with
  | (Return _, m) =>
      ensure_parent p w = (Return tt, set_fs m w) /\
      FS.isdir m (osp.dirname p) = true
  | (Raise e, _) =>
      is_OSError e = true /\ ensure_parent p w = (Return tt, w)
  end /\
  stage home p w = mkdtemp (cache_root home) (snd (ensure_parent p w)) /\
  (forall (mk : fsmap -> result unit * fsmap) e m,
      mk (fs w) = (Raise e, m) ->
      try_except (on_fs mk) is_OSError (fun _ => ret tt) w
      = if is_OSError e then (Return tt, set_fs m w)
        else (Raise e, set_fs m w)).
Proof.
  split; [|split].
  - rewrite ensure_parent_eq.
    destruct (FS.makedirs (osp.dirname p) (fs w)) as [[[]|e] m] eqn:Hmk.
    + split; [reflexivity|]. by eapply makedirs_isdir.
    + split; [|reflexivity]. by eapply makedirs_raise.
  - unfold stage. rewrite (bind_return _ _ _ _ _ (ensure_parent_eq p w)).
    rewrite ensure_parent_eq. reflexivity.
  - intros mk e m Hmk. unfold try_except.
    rewrite (on_fs_eq _ _ _ _ Hmk). by destruct (is_OSError e).
Qed.

(** C4, as stated, fails: for the relative destination [model.bin] the
    parent is the empty name, [os.makedirs] raises [FileNotFoundError], which
    does not mean that the directory exists, and yet the call completes and
    returns the path. *)
Lemma directory_creation_error_not_propagated :
  FS.makedirs (osp.dirname "model.bin") (fs Demo.w0)
  = (Raise (Exn FileNotFoundError ""), fs Demo.w0) /\
  fst (cached_download Demo.home (Demo.serve "hello") (Some Demo.url)
                       (Some "model.bin") PyNone true None [] Demo.w0)
  = Return "model.bin".
Proof. split; vm_compute; reflexivity. Qed.

End Staging.

(** ** The coordinator: transfer and placement *)



Lemma mkdtemp_inv dir w d w' :
  mkdtemp dir w = (Return d, w') ->
  fs w' = <[d := Dir]> (fs w) /\ transport_log w' = transport_log w.
Proof.
  unfold mkdtemp. destruct (FS.isdir (fs w) dir); [|discriminate].
  destruct (FS.pick_fresh dir (fs w) (tmp_names w)) as [[d0 rest]|];
    [|discriminate].
  intros Heq. injection Heq as <- <-. done.
Qed.







Section Transfer.

Context `{Hashlib}.
Variable home : string.
Variable download : transport.

Lemma stage_eq p w :
  stage home p w = mkdtemp (cache_root home) (snd (ensure_parent p w)).
Proof.
  unfold stage. rewrite (bind_return _ _ _ _ _ (ensure_parent_eq p w)).
  by rewrite ensure_parent_eq.
Qed.

(** The staging directory is a directory, and creating it and the parent
    of the destination touches no other entry of the destination. *)
Lemma stage_inv p w d w' :
  stage home p w = (Return d, w') ->
  FS.stat (fs w') d = Some Dir /\
  (p <> d -> fs w' !! p = fs w !! p) /\
  transport_log w' = transport_log w.
Proof.
  rewrite stage_eq. intros [Hfs Hlog]%mkdtemp_inv.
  destruct (ensure_parent_keeps p w) as [Hkeep Hlog'].
  split; [|split].
  - unfold FS.stat. destruct (FS.is_root d); [reflexivity|].
    by rewrite Hfs, lookup_insert_eq.
  - intros Hne. by rewrite Hfs, lookup_insert_ne.
  - congruence.
Qed.

(** A failed transfer leaves the file system as the transport left it. *)
Lemma transfer_raise_inv url p d quiet kw w e w' :
  transfer home download url p d quiet kw w = (Raise e, w') ->
  exists r, download url (osp.join d "dl") quiet kw (fs w) = (r, fs w').
Proof.
  unfold transfer, with_FileLock, bind, when, call_download, on_fs,
    print_err, ret.
  destruct quiet; simpl;
    destruct (download url (osp.join d "dl") _ kw (fs w)) as [[[]|e0] m];
    simpl.
  all: try (intros Heq; injection Heq as <- <-; eauto).
  all: destruct (FS.move (osp.join d "dl") p m) as [[[]|e1] m2] eqn:Hmv;
    intros Heq; try discriminate; injection Heq as <- <-;
    apply move_raise in Hmv as ->; eauto.
Qed.

(** A transfer that returns has called the transport once. *)
Lemma transfer_return_log url p d quiet kw w w' :
  transfer home download url p d quiet kw w = (Return tt, w') ->
  transport_log w' = transport_log w ++ [(url, osp.join d "dl")].
Proof.
  unfold transfer, with_FileLock, bind, when, call_download, on_fs,
    print_err, ret.
  destruct quiet; simpl;
    destruct (download url (osp.join d "dl") _ kw (fs w)) as [[[]|e0] m];
    simpl; try discriminate.
  all: destruct (FS.move (osp.join d "dl") p m) as [[[]|e1] m2];
    intros Heq; try discriminate; by injection Heq as <-.
Qed.

Lemma fetch_return_log url p quiet kw w w' :
  fetch home download url p quiet kw w = (Return tt, w') ->
  exists d, transport_log w' = transport_log w ++ [(url, osp.join d "dl")].
Proof.
  unfold fetch. intros (d & w1 & Hst & Htry)%bind_inv_return.
  apply stage_inv in Hst as (_ & _ & Hlog). exists d. rewrite <- Hlog.
  unfold try_except in Htry.
  destruct (transfer home download url p d quiet kw w1) as [[[]|e] w2] eqn:Htr.
  - injection Htry as <-. by eapply transfer_return_log.
  - destruct (is_Exception e); [|discriminate].
    unfold bind, on_fs, raise in Htry.
    destruct (FS.rmtree d (fs w2)) as [[[]|e1] m]; discriminate.
Qed.

(** The existence check only prints. *)
Lemma check_existence_fs p md5 quiet w :
  fs (snd (check_existence p md5 quiet w)) = fs w.
Proof.
  unfold check_existence, bind at 1, ask_fs.
  destruct (FS.exists_ (fs w) p); [|reflexivity].
  destruct (truthy md5); simpl.
  - pose proof (assert_md5sum_fs p md5 quiet w) as Hfs.
    unfold try_except, bind.
    destruct (assert_md5sum p md5 quiet w) as [[b|e] w1]; simpl in *;
      [exact Hfs|].
    destruct (is_AssertionError e); exact Hfs.
  - unfold bind. rewrite when_print. apply told_fs.
Qed.

Lemma md5sum_stat p blocksize w w0 r :
  md5sum p blocksize w0 = (r, w0) ->
  FS.stat (fs w) p = FS.stat (fs w0) p ->
  md5sum p blocksize w = (r, w).
Proof.
  unfold md5sum, bind, ask_fs, FS.read. intros Hr ->.
  destruct (FS.stat (fs w0) p) as [[c|]|]; unfold ret, raise in *; congruence.
Qed.

Lemma md5sum_return_exists p blocksize w digest w' :
  md5sum p blocksize w = (Return digest, w') -> FS.exists_ (fs w) p = true.
Proof.
  unfold md5sum, bind, ask_fs, FS.read, FS.exists_.
  destruct (FS.stat (fs w) p) as [[c|]|]; unfold ret, raise; congruence.
Qed.

End Transfer.

Section Download.

Context `{Hashlib}.
Variable home : string.
Variable download : transport.



End Download.

Section StaleEntry.

Context `{Hashlib}.
Variable home : string.
Variable download : transport.

(** A mismatch found on an existing entry becomes a line on [sys.stderr],
    printed whether or not [quiet] is set. *)
Lemma check_existence_stale p expected actual quiet w :
  String.length expected = 32 ->
  md5sum p None w = (Return actual, w) ->
  actual <> expected ->
  check_existence p (PyStr expected) quiet w
  = (Return None,
     put_stderr [mismatch_message actual expected]
                (told quiet ["Computing MD5: " ++ p]%string w)).
Proof.
  intros Hlen Hsum Hne. unfold check_existence, bind at 1, ask_fs.
  rewrite (md5sum_return_exists _ _ _ _ _ Hsum).
  assert (truthy (PyStr expected) = true) as ->.
  { destruct expected; [discriminate | reflexivity]. }
  simpl.
  assert ((assert_md5sum p (PyStr expected) quiet >> ret (Some p)) w
          = (Raise (Exn AssertionError (mismatch_message actual expected)),
             told quiet ["Computing MD5: " ++ p]%string w)) as Hbody.
  { apply bind_raise. by apply assert_md5sum_mismatch. }
  rewrite (try_except_caught _ _ _ _ _ _ Hbody eq_refl). reflexivity.
Qed.

(** C3, as the code has it.  When the file at the destination has a digest
    other than the supplied checksum of 32 characters, the existence check
    does not raise: it prints the mismatch on [sys.stderr] and the call goes
    on with the download.  If the call then returns, it returns the
    destination path, the transport has been called, and the file placed at
    the destination had the supplied checksum as its digest when it was
    verified; it still has when the call returns, provided the postprocess
    action, if any, left it alone. *)
Theorem stale_entry_is_downloaded_again
        url path expected quiet pp kw w p actual :
  resolve_path home url path w = (Return p, w) ->
  String.length expected = 32 ->
  md5sum p None w = (Return actual, w) ->
  actual <> expected ->
  let w1 := put_stderr [mismatch_message actual expected]
                       (told quiet ["Computing MD5: " ++ p]%string w) in
  check_existence p (PyStr expected) quiet w = (Return None, w1) /\
  cached_download home download url path (PyStr expected) quiet pp kw w
  = (fetch home download url p quiet kw
     >> finish p (PyStr expected) quiet pp) w1 /\
  (forall r w',
      cached_download home download url path (PyStr expected) quiet pp kw w
      = (Return r, w') ->
      r = p /\
      exists w2 d,
        fetch home download url p quiet kw w1 = (Return tt, w2) /\
        transport_log w2 = transport_log w ++ [(url, osp.join d "dl")] /\
        md5sum p None w2 = (Return expected, w2) /\
        (keeps p pp -> md5sum p None w' = (Return expected, w'))).
Proof.
  intros Hp Hlen Hsum Hne w1.
  pose proof (check_existence_stale p expected actual quiet w Hlen Hsum Hne)
    as Hc.
  pose proof (cached_download_miss home download url path (PyStr expected)
                                   quiet pp kw w p w1 Hp Hc) as Hmiss.
  split; [exact Hc|]. split; [exact Hmiss|].
  intros r w' Hret. rewrite Hmiss in Hret.
  apply bind_inv_return in Hret as ([] & w2 & Hfetch & Hfin).
  destruct (fetch_return_log _ _ _ _ _ _ _ _ Hfetch) as [d Hlog].
  assert (truthy (PyStr expected) = true) as Htruthy.
  { destruct expected; [discriminate | reflexivity]. }
  unfold finish in Hfin.
  apply bind_inv_return in Hfin as ([] & w3 & Hver & Hrest).
  destruct (verify_inv_return _ _ _ _ _ Htruthy Hver) as (s & Hs & _ & Hsum2).
  injection Hs as <-.
  pose proof (verify_fs p (PyStr expected) quiet w2) as Hfs3.
  rewrite Hver in Hfs3. simpl in Hfs3.
  apply bind_inv_return in Hrest as ([] & w4 & Hpp & Hend).
  injection Hend as <- <-.
  split; [reflexivity|]. exists w2, d. split; [exact Hfetch|].
  split; [|split; [exact Hsum2|]].
  - rewrite Hlog. unfold w1. simpl. by rewrite told_transport_log.
  - intros Hkeeps. apply (md5sum_stat _ _ _ _ _ Hsum2).
    destruct pp as [f|]; simpl in *.
    + unfold on_fs in Hpp.
      destruct (f p (fs w3)) as [r m] eqn:Hf.
      injection Hpp as _ <-. simpl.
      rewrite (Hkeeps _ _ _ Hf). by rewrite Hfs3.
    + injection Hpp as <-. by rewrite Hfs3.
Qed.

End StaleEntry.

(** ** The properties on concrete runs *)

Lemma serve_confined content : confined (Demo.serve content).
Proof.
  intros url d quiet kw m r m' Heq k Hk _. unfold Demo.serve in Heq.
  injection Heq as _ <-. by rewrite lookup_insert_ne.
Qed.


Lemma silent_confined : confined Demo.silent.
Proof.
  intros url d quiet kw m r m' Heq k _ _. unfold Demo.silent in Heq.
  by injection Heq as _ <-.
Qed.


(** When the transport returns without having written anything, the move
    raises [FileNotFoundError], which comes back after the cleanup. *)
Example failed_move_is_cleaned_up :
  let r := cached_download Demo.home Demo.silent (Some Demo.url) None PyNone
                           true None [] Demo.w0 in
  fst r = Raise (Exn FileNotFoundError "/home/u/.cache/gdown/tmp1/dl") /\
  map_to_list (fs (snd r)) = map_to_list (fs Demo.w0).
Proof. vm_compute. split; reflexivity. Qed.

(** A stale entry survives a failed download unchanged. *)
Example failed_download_keeps_stale_entry :
  let e := Exn (OtherException "ConnectionError") "reset" in
  let p := cache_path Demo.home Demo.url in
  let r := cached_download Demo.home (Demo.failing e (Some "he"))
                           (Some Demo.url) None (PyStr Demo.md5_of_hello)
                           true None [] (Demo.with_file p "stale") in
  fst r = Raise e /\
  fs (snd r) !! p = Some (File "stale") /\
  fs (snd r) !! "/home/u/.cache/gdown/tmp1" = None.
Proof. vm_compute. repeat split; reflexivity. Qed.

(** An exception that is not an [Exception] escapes the handler of line
    117: the staging directory stays, with the partial file. *)
Example keyboard_interrupt_skips_cleanup :
  let e := Exn KeyboardInterrupt "" in
  let r := cached_download Demo.home (Demo.failing e (Some "he"))
                           (Some Demo.url) None PyNone true None [] Demo.w0 in
  fst r = Raise e /\
  fs (snd r) !! "/home/u/.cache/gdown/tmp1/dl" = Some (File "he").
Proof. vm_compute. split; reflexivity. Qed.

(** C3 on a cache holding a stale file while the transport serves the right
    one: the call returns and the destination then has the expected
    digest. *)
Lemma stale_entry_is_downloaded_again_witness :
  let p := cache_path Demo.home Demo.url in
  let w := Demo.with_file p "stale" in
  let r := cached_download Demo.home (Demo.serve "hello") (Some Demo.url)
                           None (PyStr Demo.md5_of_hello) false None [] w in
  fst r = Return p /\
  stderr (snd r)
  = [mismatch_message "36f34fd8319cf30f8e132ef294c616af" Demo.md5_of_hello;
     "Cached Downloading: " ++ p]%string /\
  md5sum p None (snd r) = (Return Demo.md5_of_hello, snd r).
Proof.
  intros p w r.
  assert (r = (Return p, snd r)) as Hr by (vm_compute; reflexivity).
  split; [by rewrite Hr|]. split; [vm_compute; reflexivity|].
  destruct (stale_entry_is_downloaded_again
              Demo.home (Demo.serve "hello") (Some Demo.url) None
              Demo.md5_of_hello false None [] w p
              "36f34fd8319cf30f8e132ef294c616af")
    as (_ & _ & Hret).
  - reflexivity.
  - reflexivity.
  - vm_compute. reflexivity.
  - discriminate.
  - destruct (Hret p (snd r) Hr) as (_ & w2 & d & _ & _ & _ & Hkeeps).
    exact (Hkeeps I).
Defined.

(** C3, as stated, fails: the cache holds a stale file, the checksum has
    32 characters, the transport serves the right file and the call returns
    the path; but the postprocess action, which runs after the verification,
    has truncated the file, whose digest at return is not the checksum. *)
Lemma stale_entry_postprocess_changes_file :
  let p := cache_path Demo.home Demo.url in
  let w := Demo.with_file p "stale" in
  let r := cached_download Demo.home (Demo.serve "hello") (Some Demo.url)
                           None (PyStr Demo.md5_of_hello) true
                           (Some Demo.truncate) [] w in
  fs w !! p = Some (File "stale") /\
  String.length Demo.md5_of_hello = 32 /\
  fst (md5sum p None w) = Return "36f34fd8319cf30f8e132ef294c616af" /\
  fst r = Return p /\
  fst (md5sum p None (snd r)) = Return "d41d8cd98f00b204e9800998ecf8427e" /\
  fst (md5sum p None (snd r)) <> Return Demo.md5_of_hello.
Proof.
  vm_compute. repeat split; try reflexivity. discriminate.
Qed.

(** C7 when the transport serves a file other than the expected one. *)
Lemma post_download_mismatch_propagates_witness :
  let p := cache_path Demo.home Demo.url in
  let download := Demo.serve "other" in
  exists w2,
    fetch Demo.home download (Some Demo.url) p false [] Demo.w0
    = (Return tt, w2) /\
    cached_download Demo.home download (Some Demo.url) None
                    (PyStr Demo.md5_of_hello) false (Some Demo.truncate) []
                    Demo.w0
    = (Raise (Exn AssertionError
                  (mismatch_message "795f3202b17cb6bc3d4b771d8c6c9eaf"
                                    Demo.md5_of_hello)),
       told false ["Computing MD5: " ++ p]%string w2).
Proof.
  intros p download.
  exists (snd (fetch Demo.home download (Some Demo.url) p false [] Demo.w0)).
  assert (fetch Demo.home download (Some Demo.url) p false [] Demo.w0
          = (Return tt,
             snd (fetch Demo.home download (Some Demo.url) p false []
                        Demo.w0))) as Hfetch by (vm_compute; reflexivity).
  split; [exact Hfetch|].
  apply (post_download_mismatch_propagates
           Demo.home download (Some Demo.url) None Demo.md5_of_hello false
           (Some Demo.truncate) [] Demo.w0 p Demo.w0 _
           "795f3202b17cb6bc3d4b771d8c6c9eaf").
  - reflexivity.
  - vm_compute. reflexivity.
  - exact Hfetch.
  - reflexivity.
  - vm_compute. reflexivity.
  - discriminate.
Defined.

(** C9 on both failures: a wrong file stays at the destination when the
    verification raises, and the right one stays when the postprocess
    action raises. *)
Lemma placed_file_is_not_rolled_back_witness :
  let p := cache_path Demo.home Demo.url in
  (let r := cached_download Demo.home (Demo.serve "other") (Some Demo.url)
                            None (PyStr Demo.md5_of_hello) true None []
                            Demo.w0 in
   fst r = Raise (Exn AssertionError
                      (mismatch_message "795f3202b17cb6bc3d4b771d8c6c9eaf"
                                        Demo.md5_of_hello)) /\
   fs (snd r) !! p = Some (File "other")) /\
  (let r := cached_download Demo.home (Demo.serve "hello") (Some Demo.url)
                            None (PyStr Demo.md5_of_hello) true
                            (Some Demo.broken) [] Demo.w0 in
   fst r = Raise (Exn (OtherException "RuntimeError") "postprocess") /\
   fs (snd r) !! p = Some (File "hello")).
Proof.
  intros p. split.
  - set (download := Demo.serve "other").
    set (w2 := snd (fetch Demo.home download (Some Demo.url) p true []
                          Demo.w0)).
    set (w3 := snd (verify p (PyStr Demo.md5_of_hello) true w2)).
    destruct (placed_file_is_not_rolled_back
                Demo.home download (Some Demo.url) None
                (PyStr Demo.md5_of_hello) true None [] Demo.w0 p Demo.w0 w2)
      as (Hverify & _).
    + vm_compute. reflexivity.
    + vm_compute. reflexivity.
    + vm_compute. reflexivity.
    + destruct (Hverify
                  (Exn AssertionError
                       (mismatch_message "795f3202b17cb6bc3d4b771d8c6c9eaf"
                                         Demo.md5_of_hello)) w3)
        as [Hcall Hfs]; [vm_compute; reflexivity|].
      split; [by rewrite Hcall|].
      rewrite Hcall. change (fs w3 !! p = Some (File "other")).
      rewrite Hfs. vm_compute. reflexivity.
  - set (download := Demo.serve "hello").
    set (w2 := snd (fetch Demo.home download (Some Demo.url) p true []
                          Demo.w0)).
    destruct (placed_file_is_not_rolled_back
                Demo.home download (Some Demo.url) None
                (PyStr Demo.md5_of_hello) true (Some Demo.broken) []
                Demo.w0 p Demo.w0 w2)
      as (_ & Hpost).
    + vm_compute. reflexivity.
    + vm_compute. reflexivity.
    + vm_compute. reflexivity.
    + destruct (Hpost Demo.broken
                      (Exn (OtherException "RuntimeError") "postprocess")
                      w2 (fs w2) eq_refl)
        as (Hcall & _ & Hkept); [vm_compute; reflexivity | reflexivity|].
      split; [by rewrite Hcall|].
      rewrite Hcall. vm_compute. reflexivity.
Defined.

(** C4 on a relative destination, whose parent is the empty name, and on a
    directory creation refused for lack of permission. *)
Lemma directory_creation_errors_are_swallowed_witness :
  ensure_parent "model.bin" Demo.w0 = (Return tt, Demo.w0) /\
  try_except (on_fs (fun m => (Raise (Exn PermissionError "/data"), m)))
             is_OSError (fun _ => ret tt) Demo.w0
  = (Return tt, set_fs (fs Demo.w0) Demo.w0).
Proof.
  destruct (directory_creation_errors_are_swallowed
              Demo.home "model.bin" Demo.w0) as (Hmk & _ & Hany).
  split.
  - assert (FS.makedirs (osp.dirname "model.bin") (fs Demo.w0)
            = (Raise (Exn FileNotFoundError ""), fs Demo.w0)) as E
        by reflexivity.
    rewrite E in Hmk. exact (proj2 Hmk).
  - exact (Hany (fun m => (Raise (Exn PermissionError "/data"), m))
                (Exn PermissionError "/data") (fs Demo.w0) eq_refl).
Defined.



(** A first download with the right checksum: the file arrives at the
    destination, the transport has been called once, and the emptied
    staging directory is left behind. *)
Example fresh_download_round_trip :
  let p := cache_path Demo.home Demo.url in
  let r := cached_download Demo.home (Demo.serve "hello") (Some Demo.url)
                           None (PyStr Demo.md5_of_hello) true None []
                           Demo.w0 in
  fst r = Return p /\
  fs (snd r) !! p = Some (File "hello") /\
  transport_log (snd r)
  = [(Some Demo.url, "/home/u/.cache/gdown/tmp1/dl")] /\
  fs (snd r) !! "/home/u/.cache/gdown/tmp1" = Some Dir /\
  fs (snd r) !! "/home/u/.cache/gdown/tmp1/dl" = None.
Proof. vm_compute. repeat split; reflexivity. Qed.

(** Importing the module never fails, whether or not the cache root can be
    created. *)
Lemma import_module_returns home w :
  exists w', import_module home w = (Return tt, w').
Proof.
  unfold import_module, bind, ask_fs.
  destruct (FS.exists_ (fs w) (cache_root home)); [by eexists|].
  unfold try_except, on_fs.
  destruct (FS.makedirs (cache_root home) (fs w)) as [[[]|e] m] eqn:Hmk;
    [by eexists|].
  apply makedirs_raise in Hmk as [_ ->]. by eexists.
Qed.


(** * Further properties *)

(** ** The derived name *)

Section DerivedName.

Implicit Types (c d : ascii) (s t tok : string).

Lemma replace_app c tok s t :
  Str.replace c tok (s ++ t)
  = (Str.replace c tok s ++ Str.replace c tok t)%string.
Proof.
  induction s as [|a s IH]; simpl; [reflexivity|].
  destruct (Ascii.eqb a c); rewrite IH; [by rewrite append_assoc | done].
Qed.

Lemma replace_free c tok s :
  Str.contains c s = false -> Str.replace c tok s = s.
Proof.
  induction s as [|a s IH]; simpl; [reflexivity|].
  destruct (Ascii.eqb a c); [discriminate|]. intros Hs. by rewrite IH.
Qed.

(** Two substitutions of different characters commute when neither token
    holds the character of the other. *)
Lemma replace_comm c d tc td s :
  c <> d ->
  Str.contains d tc = false -> Str.contains c td = false ->
  Str.replace c tc (Str.replace d td s)
  = Str.replace d td (Str.replace c tc s).
Proof.
  intros Hcd Htc Htd. induction s as [|a s IH]; simpl; [reflexivity|].
  destruct (Ascii.eqb a d) eqn:Ed; destruct (Ascii.eqb a c) eqn:Ec; simpl.
  - apply Ascii.eqb_eq in Ed, Ec. congruence.
  - by rewrite Ed, replace_app, (replace_free c tc td), IH.
  - by rewrite Ec, replace_app, (replace_free d td tc), IH.
  - by rewrite Ed, Ec, IH.
Qed.

(** X1.  The derived name of a concatenation is the concatenation of the
    derived names: every character of the URL is translated on its own. *)
Theorem cache_name_app s t :
  cache_name (s ++ t) = (cache_name s ++ cache_name t)%string.
Proof. unfold cache_name. by rewrite !replace_app. Qed.

Lemma append_inv_l s t u : (s ++ t)%string = (s ++ u)%string -> t = u.
Proof. induction s; simpl; [done|]. intros [=]. auto. Qed.

(** X2.  The derivation does not tell a separator from its token: for all
    [s] and [t] the URLs [s/t] and [s-SLASH-t] differ and yet get the same
    cache path, so they share one cache entry. *)
Theorem cache_path_collision home s t :
  (s ++ "/" ++ t)%string <> (s ++ "-SLASH-" ++ t)%string /\
  cache_path home (s ++ "/" ++ t) = cache_path home (s ++ "-SLASH-" ++ t).
Proof.
  split.
  - intros Heq%append_inv_l. discriminate.
  - unfold cache_path, cache_name. by rewrite !replace_app.
Qed.

(** X3.  A URL without any of the four characters is its own derived
    name, and deriving twice is deriving once. *)
Theorem cache_name_fixpoint url :
  ((forall c, In c reserved -> Str.contains c url = false) ->
   cache_name url = url) /\
  cache_name (cache_name url) = cache_name url.
Proof.
  assert (forall u, (forall c, In c reserved -> Str.contains c u = false) ->
                    cache_name u = u) as Hfix.
  { intros u Hfree. unfold cache_name.
    rewrite (replace_free "/" _ u) by (apply Hfree; simpl; auto).
    rewrite (replace_free ":" _ u) by (apply Hfree; simpl; auto).
    rewrite (replace_free "=" _ u) by (apply Hfree; simpl; auto).
    apply replace_free, Hfree. simpl; auto. }
  split; [apply Hfix|].
  apply Hfix. intros c. apply cache_name_reserved_free.
Qed.

Lemma cache_name_fixpoint_witness :
  cache_name "model_v2.bin" = "model_v2.bin".
Proof.
  apply (proj1 (cache_name_fixpoint "model_v2.bin")).
  intros c [<-|[<-|[<-|[<-|[]]]]]; reflexivity.
Defined.

End DerivedName.

(** ** The order of the substitutions *)

Section RuleOrder.

Lemma apply_rules_perm rules rules' :
  Permutation rules rules' ->
  (forall r r', In r rules -> In r' rules -> exchangeable r r') ->
  forall s, apply_rules rules s = apply_rules rules' s.
Proof.
  induction 1 as [|x l l' Hperm IH|x y l|l l' l'' H1 IH1 H2 IH2];
    intros Hex s.
  - reflexivity.
  - simpl. apply IH. intros r r' Hr Hr'. apply Hex; by right.
  - simpl. f_equal.
    assert (exchangeable x y) as [->|(Hne & Hxy & Hyx)]
        by (apply Hex; [right; by left | by left]);
      [reflexivity|].
    destruct x as [c tc], y as [d td]; simpl in *.
    by apply replace_comm.
  - rewrite IH1 by done. apply IH2.
    intros r r' Hr Hr'.
    apply Hex; eapply Permutation_in; try eassumption; by symmetry.
Qed.

Lemma cache_rules_exchangeable r r' :
  In r cache_rules -> In r' cache_rules -> exchangeable r r'.
Proof.
  unfold cache_rules.
  intros [<-|[<-|[<-|[<-|[]]]]] [<-|[<-|[<-|[<-|[]]]]];
    first [ by left | right; repeat split; (discriminate || reflexivity) ].
Qed.

(** X4.  The order of the four substitutions does not matter: applied in
    any order they give the name the code derives. *)
Theorem cache_name_any_order rules url :
  Permutation rules cache_rules ->
  apply_rules rules url = cache_name url.
Proof.
  intros Hperm.
  change (cache_name url) with (apply_rules cache_rules url).
  apply apply_rules_perm; [exact Hperm|].
  intros r r' Hr Hr'.
  apply cache_rules_exchangeable; eapply Permutation_in; eassumption.
Qed.

Lemma cache_name_any_order_witness :
  apply_rules (rev cache_rules) Demo.url = cache_name Demo.url.
Proof.
  exact (cache_name_any_order (rev cache_rules) Demo.url
           (Permutation_sym (Permutation_rev cache_rules))).
Defined.

End RuleOrder.

(** ** The directory of the derived path *)

Section DerivedDirectory.

Implicit Types (c : ascii) (s t : string).

Lemma all_eq_app c s t :
  Str.all_eq c (s ++ t) = Str.all_eq c s && Str.all_eq c t.
Proof.
  induction s as [|a s IH]; simpl; [reflexivity|].
  by rewrite IH, andb_assoc.
Qed.

Lemma rstrip_snoc c s :
  Str.rstrip c (s ++ String c EmptyString) = Str.rstrip c s.
Proof.
  induction s as [|a s IH]; simpl.
  - by rewrite Ascii.eqb_refl.
  - by rewrite IH.
Qed.

Lemma rstrip_id c s : Str.endswith s c = false -> Str.rstrip c s = s.
Proof.
  induction s as [|a s IH]; simpl; [reflexivity|].
  destruct s as [|b s].
  - simpl. by intros ->.
  - intros Hs. rewrite (IH Hs). reflexivity.
Qed.

Lemma cut_ends_sep s :
  Str.endswith s osp.sep = true -> fst (osp.cut s) = s.
Proof.
  intros Hs. pose proof (cut_app s) as Happ.
  rewrite (cut_endswith_sep s Hs) in Happ.
  rewrite <- Happ at 2. clear. induction (fst (osp.cut s)); simpl; congruence.
Qed.

Lemma dirname_join s name :
  Str.nonempty s = true ->
  Str.endswith s osp.sep = false ->
  Str.contains osp.sep name = false ->
  osp.dirname (s ++ "/" ++ name) = s.
Proof.
  intros Hne Hend Hname. unfold osp.dirname.
  assert (Str.endswith (s ++ "/") osp.sep = true) as Hsep.
  { by rewrite endswith_app. }
  rewrite <- append_assoc, cut_app_no_sep by done. simpl.
  rewrite (cut_ends_sep _ Hsep).
  assert (Str.all_eq osp.sep s = false) as Hall.
  { clear -Hne Hend. induction s as [|a s IH]; [discriminate|].
    simpl in *. destruct s as [|b s].
    - by rewrite Hend.
    - rewrite IH by done. apply andb_false_r. }
  rewrite nonempty_app_r, all_eq_app, Hall by reflexivity. simpl.
  change (s ++ "/")%string with (s ++ String osp.sep EmptyString)%string.
  rewrite rstrip_snoc. by apply rstrip_id.
Qed.

(** X5.  The directory of every derived path is the cache root, so for a
    derived path line 102 tries to create the cache root itself: when that
    succeeds the cache root is a directory for the rest of the call. *)
Theorem derived_path_parent_is_cache_root home url :
  osp.dirname (cache_path home url) = cache_root home /\
  (forall w m,
      FS.makedirs (cache_root home) (fs w) = (Return tt, m) ->
      ensure_parent (cache_path home url) w = (Return tt, set_fs m w) /\
      FS.isdir m (cache_root home) = true).
Proof.
  assert (osp.dirname (cache_path home url) = cache_root home) as Hdir.
  { rewrite cache_path_unfold.
    destruct (cache_root_shape home) as [Hne Hend].
    apply dirname_join; [done | done |].
    apply cache_name_reserved_free. simpl; auto. }
  split; [exact Hdir|].
  intros w m Hmk. split.
  - rewrite ensure_parent_eq, Hdir, Hmk. reflexivity.
  - by eapply makedirs_isdir.
Qed.

Lemma derived_path_parent_is_cache_root_witness :
  let w := World ∅ [] [] [1] [] in
  osp.dirname (cache_path Demo.home Demo.url) = "/home/u/.cache/gdown" /\
  FS.isdir (fs (snd (ensure_parent (cache_path Demo.home Demo.url) w)))
           "/home/u/.cache/gdown" = true.
Proof.
  intros w.
  destruct (derived_path_parent_is_cache_root Demo.home Demo.url)
    as [Hdir Hmk].
  split; [exact Hdir|].
  destruct (Hmk w (snd (FS.makedirs (cache_root Demo.home) (fs w))))
    as [-> Hisdir]; [vm_compute; reflexivity|].
  exact Hisdir.
Defined.

End DerivedDirectory.

(** ** The hashing loop *)

Section HashingLoop.

Context `{Hashlib}.

(** With a streaming hash, the loop of lines 28-29 leaves the hash in the
    state that feeding the whole data at once gives. *)
Lemma fold_blocks fuel blocksize data h :
  streaming H -> 0 < blocksize -> String.length data <= fuel ->
  fold_left md5_update (read_blocks fuel blocksize data) h
  = match data with
    | EmptyString => h
    | _ => md5_update h data
    end.
Proof.
  intros Hlaw Hpos. revert data h.
  induction fuel as [|fuel IH]; intros data h Hlen; simpl.
  - destruct data; simpl in *; [reflexivity | lia].
  - destruct (String.substring 0 blocksize data) as [|a b] eqn:Hblock.
    + destruct blocksize; [lia|].
      destruct data; [reflexivity | simpl in Hblock; discriminate].
    + simpl.
      pose proof (substring_split blocksize (String.length data) data
                                  (Nat.le_refl _)) as Hsplit.
      pose proof (substring_length_le blocksize (String.length data) data)
        as Hrest.
      rewrite Hblock in Hsplit.
      set (rest := String.substring blocksize (String.length data) data) in *.
      rewrite IH.
      * destruct data as [|x data]; [destruct blocksize; discriminate|].
        destruct rest as [|y rest'].
        -- rewrite <- Hsplit. f_equal. clear.
           simpl. f_equal. induction b; simpl; congruence.
        -- by rewrite Hlaw, Hsplit.
      * destruct data; [destruct blocksize; discriminate|].
        simpl in *. lia.
Qed.

(** X6.  With a streaming hash the digest does not depend on the block
    size: every positive block size, and the default, give the digest of
    the whole content fed at once. *)
Theorem md5sum_any_blocksize filename blocksize w :
  streaming H ->
  match blocksize with Some b => 0 < b | None => True end ->
  md5sum filename blocksize w = md5sum filename None w /\
  (forall data,
      FS.read (fs w) filename = Return data ->
      md5sum filename blocksize w
      = (Return (md5_hexdigest
                   match data with
                   | EmptyString => md5_new
                   | _ => md5_update md5_new data
                   end), w)).
Proof.
  intros Hlaw Hpos.
  assert (forall bs data,
             match bs with Some b => 0 < b | None => True end ->
             FS.read (fs w) filename = Return data ->
             md5sum filename bs w
             = (Return (md5_hexdigest
                          match data with
                          | EmptyString => md5_new
                          | _ => md5_update md5_new data
                          end), w)) as Hall.
  { intros bs data Hbs Hread. unfold md5sum, bind, ask_fs.
    rewrite Hread. simpl. rewrite fold_blocks; [reflexivity|done| |lia].
    destruct bs; [exact Hbs | apply default_blocksize_pos]. }
  split; [|intros data; by apply Hall].
  destruct (FS.read (fs w) filename) as [data|e] eqn:Hread.
  - by rewrite (Hall blocksize data), (Hall None data).
  - unfold md5sum, bind, ask_fs. by rewrite Hread.
Qed.

(** X7.  A block size of 0 reads nothing: the result is the digest of the
    empty input, whatever the file holds. *)
Theorem md5sum_zero_blocksize filename w data :
  FS.read (fs w) filename = Return data ->
  md5sum filename (Some 0) w = (Return (md5_hexdigest md5_new), w).
Proof.
  intros Hread. unfold md5sum, bind, ask_fs. rewrite Hread. simpl.
  assert (read_blocks (String.length data) 0 data = []) as ->; [|reflexivity].
  destruct data as [|c data]; reflexivity.
Qed.

End HashingLoop.

Lemma hashlib_md5_streaming : streaming hashlib_md5.
Proof. intros h a b. simpl. apply append_assoc. Qed.

Lemma md5sum_any_blocksize_witness :
  let w := Demo.with_file "/data/model.bin" "hello" in
  md5sum "/data/model.bin" (Some 2) w = md5sum "/data/model.bin" None w /\
  md5sum "/data/model.bin" (Some 2) w = (Return Demo.md5_of_hello, w).
Proof.
  intros w.
  destruct (md5sum_any_blocksize "/data/model.bin" (Some 2) w
                                 hashlib_md5_streaming)
    as [Hsame Hdigest]; [simpl; lia|].
  split; [exact Hsame|].
  rewrite (Hdigest "hello"); [|vm_compute; reflexivity].
  vm_compute. reflexivity.
Defined.

Lemma md5sum_zero_blocksize_witness :
  let w := Demo.with_file "/data/model.bin" "hello" in
  md5sum "/data/model.bin" (Some 0) w
  = (Return "d41d8cd98f00b204e9800998ecf8427e", w).
Proof.
  intros w.
  rewrite (md5sum_zero_blocksize "/data/model.bin" w "hello");
    [|vm_compute; reflexivity].
  vm_compute. reflexivity.
Defined.

(** ** What a call leaves alone *)

Section Leaves.

Context {B : Type} (f : world -> B).

Lemma leaves_ret {A} (a : A) : leaves f (ret a).
Proof. by intros w. Qed.

Lemma leaves_raise {A} e : leaves f (@raise A e).
Proof. by intros w. Qed.

Lemma leaves_bind {A C} (m : M A) (k : A -> M C) :
  leaves f m -> (forall a, leaves f (k a)) -> leaves f (bind m k).
Proof.
  intros Hm Hk w. unfold bind. specialize (Hm w).
  destruct (m w) as [[a|e] w1]; simpl in *; [|exact Hm].
  by rewrite (Hk a w1).
Qed.

Lemma leaves_try_except {A} (body : M A) catches handler :
  leaves f body -> (forall e, leaves f (handler e)) ->
  leaves f (try_except body catches handler).
Proof.
  intros Hb Hh w. unfold try_except. specialize (Hb w).
  destruct (body w) as [[a|e] w1]; simpl in *; [exact Hb|].
  destruct (catches e); [|exact Hb]. by rewrite (Hh e w1).
Qed.

Lemma leaves_when c body : leaves f body -> leaves f (when c body).
Proof. destruct c; [done | intros _; apply leaves_ret]. Qed.

Lemma leaves_ask_fs {A} (g : fsmap -> A) : leaves f (ask_fs g).
Proof. by intros w. Qed.

(** The component is not the file system. *)
Hypothesis f_set_fs : forall m w, f (set_fs m w) = f w.

Lemma leaves_on_fs {A} (g : fsmap -> result A * fsmap) : leaves f (on_fs g).
Proof.
  intros w. unfold on_fs. destruct (g (fs w)) as [r m]. apply f_set_fs.
Qed.

Lemma leaves_ensure_parent p : leaves f (ensure_parent p).
Proof.
  apply leaves_try_except; [apply leaves_on_fs | intros; apply leaves_ret].
Qed.

End Leaves.

Section LeavesCall.

Context `{Hashlib}.
Variable home : string.
Variable download : transport.

Lemma leaves_md5sum {B} (f : world -> B) filename blocksize :
  leaves f (md5sum filename blocksize).
Proof. intros w. by rewrite md5sum_state. Qed.

(** The verifier touches the standard output only, and not even that when
    [quiet] is set. *)
Lemma leaves_assert_md5sum {B} (f : world -> B) filename md5 quiet :
  (forall line, leaves f (print line)) \/ quiet = true ->
  leaves f (assert_md5sum filename md5 quiet).
Proof.
  intros Hprint. unfold assert_md5sum.
  assert (forall line, leaves f (when (negb quiet) (print line))) as Hwhen.
  { intros line. destruct Hprint as [Hprint| ->];
      [apply leaves_when, Hprint | apply leaves_ret]. }
  destruct (negb (is_str md5 && Nat.eqb (py_len md5) 32));
    [apply leaves_raise|].
  apply leaves_bind; [apply Hwhen | intros _].
  apply leaves_bind; [apply leaves_md5sum | intros actual].
  destruct (str_eq actual md5); [|apply leaves_raise].
  apply leaves_bind; [apply Hwhen | intros _; apply leaves_ret].
Qed.

Lemma leaves_verify {B} (f : world -> B) p md5 quiet :
  (forall line, leaves f (print line)) \/ quiet = true ->
  leaves f (verify p md5 quiet).
Proof.
  intros Hprint. unfold verify. destruct (truthy md5); [|apply leaves_ret].
  apply leaves_bind; [by apply leaves_assert_md5sum|].
  intros _; apply leaves_ret.
Qed.

Lemma leaves_finish {B} (f : world -> B) p md5 quiet pp :
  (forall m w, f (set_fs m w) = f w) ->
  (forall line, leaves f (print line)) \/ quiet = true ->
  leaves f (finish p md5 quiet pp).
Proof.
  intros Hset Hprint. unfold finish.
  apply leaves_bind; [by apply leaves_verify | intros _].
  apply leaves_bind; [|intros _; apply leaves_ret].
  destruct pp; [by apply leaves_on_fs | apply leaves_ret].
Qed.

Lemma leaves_resolve_path {B} (f : world -> B) url path :
  leaves f (resolve_path home url path).
Proof.
  unfold resolve_path. destruct path; [apply leaves_ret|].
  destruct url; [apply leaves_ret | apply leaves_raise].
Qed.

Lemma leaves_check_existence {B} (f : world -> B) p md5 quiet :
  (forall line, leaves f (print line)) \/ quiet = true ->
  (forall line, leaves f (print_err line)) ->
  leaves f (check_existence p md5 quiet).
Proof.
  intros Hprint Herr. unfold check_existence.
  apply leaves_bind; [apply leaves_ask_fs | intros found].
  destruct found; [|apply leaves_ret].
  destruct (negb (truthy md5)).
  - apply leaves_bind; [|intros _; apply leaves_ret].
    destruct Hprint as [Hprint| ->];
      [apply leaves_when, Hprint | apply leaves_ret].
  - apply leaves_try_except.
    + apply leaves_bind; [by apply leaves_assert_md5sum|].
      intros _; apply leaves_ret.
    + intros e. apply leaves_bind; [apply Herr | intros _; apply leaves_ret].
Qed.


Lemma leaves_mkdtemp_stdout dir : leaves stdout (mkdtemp dir).
Proof.
  intros w. unfold mkdtemp. destruct (FS.isdir (fs w) dir); [|reflexivity].
  by destruct (FS.pick_fresh dir (fs w) (tmp_names w)) as [[d rest]|].
Qed.

Lemma leaves_mkdtemp_stderr dir : leaves stderr (mkdtemp dir).
Proof.
  intros w. unfold mkdtemp. destruct (FS.isdir (fs w) dir); [|reflexivity].
  by destruct (FS.pick_fresh dir (fs w) (tmp_names w)) as [[d rest]|].
Qed.


(** With [quiet] set the body of the [try] statement prints nothing. *)
Lemma transfer_quiet url p d kw w :
  stdout (snd (transfer home download url p d true kw w)) = stdout w /\
  stderr (snd (transfer home download url p d true kw w)) = stderr w.
Proof.
  unfold transfer, with_FileLock, bind, when, call_download, on_fs, ret.
  simpl.
  destruct (download url (osp.join d "dl") true kw (fs w)) as [[[]|e0] m];
    simpl; [|done].
  by destruct (FS.move (osp.join d "dl") p m) as [[[]|e1] m2].
Qed.

(** The handler of line 117 and what follows it leave the three records
    alone. *)
Lemma fetch_after_stage url p quiet kw w d w1 :
  stage home p w = (Return d, w1) ->
  let w2 := snd (transfer home download url p d quiet kw w1) in
  let w' := snd (fetch home download url p quiet kw w) in
  transport_log w' = transport_log w2 /\
  stdout w' = stdout w2 /\ stderr w' = stderr w2.
Proof.
  intros Hst. simpl. unfold fetch. rewrite (bind_return _ _ _ _ _ Hst).
  unfold try_except.
  destruct (transfer home download url p d quiet kw w1) as [[[]|e] w2];
    simpl; [done|].
  destruct (is_Exception e); [|done].
  unfold bind, on_fs, raise.
  by destruct (FS.rmtree d (fs w2)) as [[[]|e1] m].
Qed.

Lemma stage_leaves {B} (f : world -> B) p :
  (forall m w, f (set_fs m w) = f w) ->
  leaves f (mkdtemp (cache_root home)) ->
  leaves f (stage home p).
Proof.
  intros Hset Hmk. unfold stage.
  apply leaves_bind; [by apply leaves_ensure_parent | by intros _].
Qed.


(** The existence check, with [quiet] set, writes at most the warning of
    line 97 on the standard error. *)
Lemma check_existence_stderr p md5 w :
  let w1 := snd (check_existence p md5 true w) in
  stderr w1 = stderr w \/ exists line, stderr w1 = stderr w ++ [line].
Proof.
  simpl. unfold check_existence, bind, ask_fs.
  destruct (FS.exists_ (fs w) p); [|by left].
  destruct (negb (truthy md5)); [by left|].
  pose proof (leaves_assert_md5sum stderr p md5 true
                (or_intror eq_refl) w) as Hassert.
  unfold try_except.
  destruct (assert_md5sum p md5 true w) as [[b|e] w1]; simpl in *;
    [by left|].
  destruct (is_AssertionError e); [|by left].
  right. exists (exn_msg e). simpl. by rewrite Hassert.
Qed.

(** X9.  With [quiet] set a call writes nothing of its own on the standard
    output, and at most one line on the standard error: the warning of
    line 97.  (What the transport and the postprocess action print is theirs
    and is not part of the state.) *)
Theorem quiet_call_prints_nothing url path md5 pp kw w :
  let w' := snd (cached_download home download url path md5 true pp kw w) in
  stdout w' = stdout w /\
  (stderr w' = stderr w \/ exists line, stderr w' = stderr w ++ [line]).
Proof.
  simpl. unfold cached_download, bind.
  pose proof (leaves_resolve_path stdout url path w) as Hres.
  pose proof (leaves_resolve_path stderr url path w) as Hres'.
  destruct (resolve_path home url path w) as [[p|e] w0];
    simpl in Hres, Hres'; [|split; [done | by left]].
  pose proof (leaves_check_existence stdout p md5 true
                (or_intror eq_refl) (fun _ _ => eq_refl) w0) as Hout.
  pose proof (check_existence_stderr p md5 w0) as Herr.
  assert (forall w', stdout w' = stdout (snd (check_existence p md5 true w0)) ->
                     stderr w' = stderr (snd (check_existence p md5 true w0)) ->
                     stdout w' = stdout w /\
                     (stderr w' = stderr w \/
                      exists line, stderr w' = stderr w ++ [line])) as Hend.
  { intros w' Ho He. split; [congruence|].
    destruct Herr as [Herr|[line Herr]]; [left | right; exists line];
      congruence. }
  clear Hout Herr.
  destruct (check_existence p md5 true w0) as [[[p'|]|e] w1];
    simpl in Hend; [by apply Hend| |by apply Hend].
  assert (stdout (snd ((fetch home download url p true kw
                        >> finish p md5 true pp) w1)) = stdout w1 /\
          stderr (snd ((fetch home download url p true kw
                        >> finish p md5 true pp) w1)) = stderr w1)
    as [Hout2 Herr2].
  { pose proof (stage_leaves stdout p (fun _ _ => eq_refl)
                             (leaves_mkdtemp_stdout _) w1) as Hso.
    pose proof (stage_leaves stderr p (fun _ _ => eq_refl)
                             (leaves_mkdtemp_stderr _) w1) as Hse.
    pose proof (leaves_finish stdout p md5 true pp
                  (fun _ _ => eq_refl) (or_intror eq_refl)) as Hfo.
    pose proof (leaves_finish stderr p md5 true pp
                  (fun _ _ => eq_refl) (or_intror eq_refl)) as Hfe.
    unfold bind.
    destruct (stage home p w1) as [[d|e] w2] eqn:Hstage; simpl in Hso, Hse.
    - destruct (fetch_after_stage url p true kw w1 _ w2 Hstage)
        as (_ & Ho & He).
      destruct (transfer_quiet url p d kw w2) as [Hto Hte].
      destruct (fetch home download url p true kw w1) as [[[]|e] w3];
        simpl in *; [rewrite Hfo, Hfe|]; split; congruence.
    - unfold fetch, bind. rewrite Hstage. simpl. by split. }
  unfold bind in Hout2, Herr2. by apply Hend.
Qed.

End LeavesCall.

(** ** Errors on the way *)

Section ErrorsOnTheWay.

Context `{Hashlib}.
Variable home : string.
Variable download : transport.

Lemma truthy_length_32 s : String.length s = 32 -> truthy (PyStr s) = true.
Proof. destruct s; [discriminate | reflexivity]. Qed.

(** X10.  A directory at the destination is not a stale entry: with a
    checksum of 32 characters the attempt to read it raises
    [IsADirectoryError], which the handler of line 95 does not catch; the
    call raises it without warning, download or change of the file
    system. *)
Theorem directory_at_destination_is_an_error
        url path expected quiet pp kw w p :
  resolve_path home url path w = (Return p, w) ->
  FS.stat (fs w) p = Some Dir ->
  String.length expected = 32 ->
  cached_download home download url path (PyStr expected) quiet pp kw w
  = (Raise (Exn IsADirectoryError p),
     told quiet ["Computing MD5: " ++ p]%string w).
Proof.
  intros Hp Hdir Hlen. unfold cached_download.
  rewrite (bind_return _ _ _ _ _ Hp). apply bind_raise.
  unfold check_existence, bind at 1, ask_fs, FS.exists_.
  rewrite Hdir, (truthy_length_32 _ Hlen). simpl.
  apply try_except_uncaught; [|reflexivity].
  apply bind_raise, assert_md5sum_unreadable; [exact Hlen|].
  unfold md5sum, bind, ask_fs, FS.read. by rewrite Hdir.
Qed.

(** X11.  A checksum that is set but is not a string of 32 characters is
    only found out by [assert_md5sum].  On an existing destination the call
    raises [ValueError] at once and leaves the state as it is; on a missing
    one the download is made first, and [ValueError] is raised with the
    file system as the download left it. *)
Theorem malformed_checksum_is_found_late
        url path md5 quiet pp kw w p :
  truthy md5 = true ->
  is_str md5 && Nat.eqb (py_len md5) 32 = false ->
  resolve_path home url path w = (Return p, w) ->
  let e := Exn ValueError ("MD5 must be 32 chars: " ++ py_format md5) in
  (FS.exists_ (fs w) p = true ->
   cached_download home download url path md5 quiet pp kw w = (Raise e, w))
  /\
  (forall w2,
      FS.exists_ (fs w) p = false ->
      fetch home download url p quiet kw w = (Return tt, w2) ->
      cached_download home download url path md5 quiet pp kw w
      = (Raise e, w2)).
Proof.
  intros Htruthy Hbad Hp e. split.
  - intros Hex. unfold cached_download.
    rewrite (bind_return _ _ _ _ _ Hp). apply bind_raise.
    unfold check_existence, bind at 1, ask_fs. rewrite Hex, Htruthy. simpl.
    apply try_except_uncaught; [|reflexivity].
    apply bind_raise. by apply assert_md5sum_invalid.
  - intros w2 Hex Hfetch.
    assert (check_existence p md5 quiet w = (Return None, w)) as Hc.
    { unfold check_existence, bind, ask_fs. by rewrite Hex. }
    rewrite (cached_download_miss _ _ _ _ _ _ _ _ _ _ _ Hp Hc).
    rewrite (bind_return _ _ _ _ _ Hfetch).
    apply finish_verify_raises. unfold verify. rewrite Htruthy.
    apply bind_raise. by apply assert_md5sum_invalid.
Qed.

(** X12.  When the cache root is not a directory once the parent of the
    destination has been dealt with, a cache miss cannot be served: the
    call raises the [OSError] of [mkdtemp] and the transport is not
    called. *)
Theorem missing_cache_root_stops_the_call
        url path md5 quiet pp kw w p w1 :
  resolve_path home url path w = (Return p, w) ->
  check_existence p md5 quiet w = (Return None, w1) ->
  FS.isdir (fs (snd (ensure_parent p w1))) (cache_root home) = false ->
  exists e,
    is_OSError e = true /\
    cached_download home download url path md5 quiet pp kw w
    = (Raise e, snd (ensure_parent p w1)) /\
    transport_log (snd (ensure_parent p w1)) = transport_log w.
Proof.
  intros Hp Hc Hroot. exists (Exn FileNotFoundError (cache_root home)).
  split; [reflexivity|]. split.
  - rewrite (cached_download_miss _ _ _ _ _ _ _ _ _ _ _ Hp Hc).
    apply bind_raise. unfold fetch. apply bind_raise.
    rewrite stage_eq. unfold mkdtemp. by rewrite Hroot.
  - destruct (ensure_parent_keeps p w1) as [_ ->].
    pose proof (leaves_check_existence transport_log p md5 quiet
                  (or_introl (fun _ _ => eq_refl)) (fun _ _ => eq_refl) w)
      as Hlog.
    by rewrite Hc in Hlog.
Qed.

(** X13.  An exception of the transfer that is not an [Exception], such
    as [KeyboardInterrupt], bypasses the handler of line 117: the call
    raises it with the state exactly as the transfer left it, the staging
    directory included. *)
Theorem interrupt_skips_cleanup
        url path md5 quiet pp kw w p w1 d w2 e w3 :
  resolve_path home url path w = (Return p, w) ->
  check_existence p md5 quiet w = (Return None, w1) ->
  stage home p w1 = (Return d, w2) ->
  transfer home download url p d quiet kw w2 = (Raise e, w3) ->
  is_Exception e = false ->
  cached_download home download url path md5 quiet pp kw w = (Raise e, w3) /\
  (forall m r, download url (osp.join d "dl") quiet kw (fs w2) = (r, m) ->
               fs w3 = m).
Proof.
  intros Hp Hc Hst Htr Hexc. split.
  - rewrite (cached_download_miss _ _ _ _ _ _ _ _ _ _ _ Hp Hc).
    apply bind_raise. unfold fetch. rewrite (bind_return _ _ _ _ _ Hst).
    by apply try_except_uncaught.
  - intros m r Hdl.
    destruct (transfer_raise_inv _ _ _ _ _ _ _ _ _ _ Htr) as [r' Hdl'].
    congruence.
Qed.

End ErrorsOnTheWay.

Lemma directory_at_destination_is_an_error_witness :
  let w := set_fs (<["/data/models" := Dir]> Demo.base_fs) Demo.w0 in
  cached_download Demo.home (Demo.serve "hello") (Some Demo.url)
                  (Some "/data/models") (PyStr Demo.md5_of_hello) true None
                  [] w
  = (Raise (Exn IsADirectoryError "/data/models"), w).
Proof.
  intros w.
  apply (directory_at_destination_is_an_error
           Demo.home (Demo.serve "hello") (Some Demo.url)
           (Some "/data/models") Demo.md5_of_hello true None [] w
           "/data/models").
  - reflexivity.
  - vm_compute. reflexivity.
  - vm_compute. reflexivity.
Defined.

Lemma malformed_checksum_is_found_late_witness :
  let w := Demo.with_file "model.bin" "hello" in
  let e := Exn ValueError "MD5 must be 32 chars: True" in
  cached_download Demo.home (Demo.serve "hello") (Some Demo.url)
                  (Some "model.bin") (PyBool true) true None [] w
  = (Raise e, w) /\
  fst (cached_download Demo.home (Demo.serve "hello") (Some Demo.url)
                       (Some "model.bin") (PyBool true) true None []
                       Demo.w0)
  = Raise e /\
  fs (snd (cached_download Demo.home (Demo.serve "hello") (Some Demo.url)
                           (Some "model.bin") (PyBool true) true None []
                           Demo.w0)) !! "model.bin"
  = Some (File "hello").
Proof.
  intros w e.
  destruct (malformed_checksum_is_found_late
              Demo.home (Demo.serve "hello") (Some Demo.url)
              (Some "model.bin") (PyBool true) true None [] w "model.bin"
              eq_refl eq_refl eq_refl) as [Hnow _].
  destruct (malformed_checksum_is_found_late
              Demo.home (Demo.serve "hello") (Some Demo.url)
              (Some "model.bin") (PyBool true) true None [] Demo.w0
              "model.bin" eq_refl eq_refl eq_refl) as [_ Hlate].
  split; [apply Hnow; vm_compute; reflexivity|].
  set (w2 := snd (fetch Demo.home (Demo.serve "hello") (Some Demo.url)
                        "model.bin" true [] Demo.w0)).
  rewrite (Hlate w2); [|vm_compute; reflexivity|vm_compute; reflexivity].
  split; [reflexivity|]. vm_compute. reflexivity.
Defined.

Lemma missing_cache_root_stops_the_call_witness :
  let w := World ∅ [] [] [1] [] in
  exists e,
    is_OSError e = true /\
    fst (cached_download Demo.home (Demo.serve "hello") (Some Demo.url)
                         (Some "model.bin") PyNone true None [] w)
    = Raise e /\
    transport_log
      (snd (cached_download Demo.home (Demo.serve "hello") (Some Demo.url)
                            (Some "model.bin") PyNone true None [] w))
    = [].
Proof.
  intros w.
  destruct (missing_cache_root_stops_the_call
              Demo.home (Demo.serve "hello") (Some Demo.url)
              (Some "model.bin") PyNone true None [] w "model.bin" w)
    as (e & HOS & Hcall & Hlog).
  - reflexivity.
  - vm_compute. reflexivity.
  - vm_compute. reflexivity.
  - exists e. rewrite Hcall.
    split; [exact HOS|]. split; [reflexivity | exact Hlog].
Defined.

Lemma interrupt_skips_cleanup_witness :
  let e := Exn KeyboardInterrupt "" in
  let download := Demo.failing e (Some "he") in
  let r := cached_download Demo.home download (Some Demo.url) None PyNone
                           true None [] Demo.w0 in
  fst r = Raise e /\
  fs (snd r) !! "/home/u/.cache/gdown/tmp1" = Some Dir /\
  fs (snd r) !! "/home/u/.cache/gdown/tmp1/dl" = Some (File "he").
Proof.
  intros e download r.
  set (p := cache_path Demo.home Demo.url).
  set (d := "/home/u/.cache/gdown/tmp1").
  set (w2 := snd (stage Demo.home p Demo.w0)).
  set (w3 := snd (transfer Demo.home download (Some Demo.url) p d true []
                           w2)).
  destruct (interrupt_skips_cleanup
              Demo.home download (Some Demo.url) None PyNone true None []
              Demo.w0 p Demo.w0 d w2 e w3) as [Hcall _].
  - reflexivity.
  - vm_compute. reflexivity.
  - vm_compute. reflexivity.
  - vm_compute. reflexivity.
  - reflexivity.
  - unfold r. rewrite Hcall. simpl. split; [reflexivity|].
    split; vm_compute; reflexivity.
Defined.

(** ** A download that succeeds *)

Section Success.

Variable home : string.
Variable download : transport.



End Success.


(** ** Calling again *)

Section CallingAgain.

Context `{Hashlib}.
Variable home : string.
Variable download : transport.

Lemma resolve_path_pure url path w r w0 :
  resolve_path home url path w = (r, w0) ->
  w0 = w /\ forall w', resolve_path home url path w' = (r, w').
Proof.
  unfold resolve_path. destruct path as [p|]; [|destruct url as [u|]];
    unfold ret, raise; intros [= <- <-]; done.
Qed.

(** What a cache hit under a checksum tells. *)
Lemma check_existence_hit_inv p md5 quiet w p' w1 :
  truthy md5 = true ->
  check_existence p md5 quiet w = (Return (Some p'), w1) ->
  p' = p /\ fs w1 = fs w /\
  exists s, md5 = PyStr s /\ String.length s = 32 /\
            md5sum p None w = (Return s, w).
Proof.
  intros Htruthy Hc.
  pose proof (check_existence_fs p md5 quiet w) as Hfs.
  rewrite Hc in Hfs. simpl in Hfs.
  unfold check_existence, bind at 1, ask_fs in Hc.
  destruct (FS.exists_ (fs w) p); [|discriminate].
  rewrite Htruthy in Hc. simpl in Hc. unfold try_except in Hc.
  destruct ((assert_md5sum p md5 quiet >> ret (Some p)) w)
    as [[o|e] w2] eqn:Hbody.
  - injection Hc as -> ->.
    apply bind_inv_return in Hbody as (b & w3 & Hassert & Hret).
    injection Hret as -> _.
    split; [done|]. split; [done|].
    by eapply assert_md5sum_inv_return.
  - destruct (is_AssertionError e); [|discriminate].
    unfold bind, print_err, ret in Hc. discriminate.
Qed.

(** X15.  A call with a checksum and no postprocess action that has
    returned can be repeated at once: the second call returns the same
    path as a verified cache hit, without calling the transport and without
    touching the file system. *)
Theorem repeated_call_is_cache_hit url path md5 quiet kw w r w' :
  truthy md5 = true ->
  cached_download home download url path md5 quiet None kw w
  = (Return r, w') ->
  cached_download home download url path md5 quiet None kw w'
  = (Return r,
     told quiet ["Computing MD5: " ++ r; "MD5 matches: " ++ r]%string w').
Proof.
  intros Htruthy Hcall. unfold cached_download in Hcall.
  apply bind_inv_return in Hcall as (p & w0 & Hp & Hcall).
  destruct (resolve_path_pure _ _ _ _ _ Hp) as [-> Hpure].
  apply bind_inv_return in Hcall as (hit & w1 & Hc & Hcall).
  assert (r = p /\ exists s, md5 = PyStr s /\ String.length s = 32 /\
                             md5sum p None w' = (Return s, w'))
    as (-> & s & -> & Hlen & Hsum).
  { destruct hit as [p'|].
    - injection Hcall as <- <-.
      destruct (check_existence_hit_inv _ _ _ _ _ _ Htruthy Hc)
        as (-> & Hfs & s & Hs & Hlen & Hsum).
      split; [done|]. exists s. split; [done|]. split; [done|].
      by apply (md5sum_frame _ _ _ _ _ Hsum).
    - apply bind_inv_return in Hcall as ([] & w2 & Hfetch & Hfin).
      unfold finish in Hfin.
      apply bind_inv_return in Hfin as ([] & w3 & Hver & Hrest).
      injection Hrest as <- <-.
      destruct (verify_inv_return _ _ _ _ _ Htruthy Hver)
        as (s & Hs & Hlen & Hsum).
      split; [done|]. exists s. split; [done|]. split; [done|].
      apply (md5sum_frame _ _ _ _ _ Hsum).
      pose proof (verify_fs p md5 quiet w2) as Hfs. by rewrite Hver in Hfs. }
  eapply cached_download_hit; [apply Hpure|].
  apply check_existence_verified; [|done|done].
  by eapply md5sum_return_exists.
Qed.

End CallingAgain.

Lemma repeated_call_is_cache_hit_witness :
  let p := cache_path Demo.home Demo.url in
  let first := cached_download Demo.home (Demo.serve "hello") (Some Demo.url)
                               None (PyStr Demo.md5_of_hello) true None []
                               Demo.w0 in
  cached_download Demo.home (Demo.serve "hello") (Some Demo.url) None
                  (PyStr Demo.md5_of_hello) true None [] (snd first)
  = (Return p,
     told true ["Computing MD5: " ++ p; "MD5 matches: " ++ p]%string
          (snd first)).
Proof.
  intros p first.
  assert (first = (Return p, snd first)) as Hfirst
      by (vm_compute; reflexivity).
  exact (repeated_call_is_cache_hit
           Demo.home (Demo.serve "hello") (Some Demo.url) None
           (PyStr Demo.md5_of_hello) true [] Demo.w0 p (snd first)
           eq_refl Hfirst).
Defined.

(** ** Importing the module *)

Section AtImport.

Variable home : string.

(** [makedirs] changes no entry that exists. *)
Lemma makedirs_preserves d m r m' k v :
  FS.makedirs d m = (r, m') -> m !! k = Some v -> m' !! k = Some v.
Proof.
  unfold FS.makedirs. intros Hmk Hk.
  destruct (negb (Str.nonempty d)); [by injection Hmk as _ <-|].
  destruct (FS.exists_ m d) eqn:Hex; [by injection Hmk as _ <-|].
  destruct (existsb (FS.isfile m) (FS.ancestors d)) eqn:Hfile;
    [by injection Hmk as _ <-|].
  injection Hmk as _ <-.
  change (fold_right (fun a acc => <[a:=Dir]> acc) m (d :: FS.ancestors d)
          !! k = Some v).
  rewrite lookup_fold_insert_dir.
  destruct (decide (k ∈ d :: FS.ancestors d)) as [Hin|Hnin];
    [|by rewrite bool_decide_eq_false_2].
  rewrite bool_decide_eq_true_2 by done.
  apply elem_of_cons in Hin as [->|Hin].
  - unfold FS.exists_, FS.stat in Hex.
    destruct (FS.is_root d); [discriminate|]. by rewrite Hk in Hex.
  - apply list_elem_of_In in Hin.
    pose proof Hin as Hshape. apply filter_In in Hshape as [_ Hshape].
    apply andb_true_iff in Hshape as [Hne Hend].
    apply negb_true_iff in Hend.
    assert (FS.isfile m k = false) as Hk'.
    { destruct (FS.isfile m k) eqn:E; [|done].
      assert (existsb (FS.isfile m) (FS.ancestors d) = true)
        by (apply existsb_exists; eauto).
      congruence. }
    assert (FS.is_root k = false) as Hroot.
    { unfold FS.is_root. rewrite Hne. simpl.
      destruct (Str.all_eq osp.sep k) eqn:E; [|done].
      exfalso. clear -Hne Hend E.
      induction k as [|a k IH]; [discriminate|].
      simpl in *. apply andb_true_iff in E as [Ea Ek].
      destruct k as [|b k]; [congruence|]. by apply IH. }
    unfold FS.isfile, FS.stat in Hk'. rewrite Hroot, Hk in Hk'.
    by destruct v.
Qed.

(** X16.  Importing the module never fails.  It changes no entry that
    exists; where the cache root was missing and could be created it is a
    directory afterwards; and importing again changes nothing more. *)
Theorem import_module_is_safe w :
  exists w',
    import_module home w = (Return tt, w') /\
    (forall k v, fs w !! k = Some v -> fs w' !! k = Some v) /\
    (forall m,
        FS.exists_ (fs w) (cache_root home) = false ->
        FS.makedirs (cache_root home) (fs w) = (Return tt, m) ->
        FS.isdir (fs w') (cache_root home) = true) /\
    import_module home w' = (Return tt, w').
Proof.
  unfold import_module, bind, ask_fs.
  destruct (FS.exists_ (fs w) (cache_root home)) eqn:Hex.
  - exists w. rewrite Hex. repeat split; (done || congruence).
  - unfold try_except, on_fs.
    destruct (FS.makedirs (cache_root home) (fs w)) as [[[]|e] m] eqn:Hmk.
    + exists (set_fs m w). pose proof (makedirs_isdir _ _ _ Hmk) as Hdir.
      split; [reflexivity|]. split; [|split].
      * intros k v. by eapply makedirs_preserves.
      * intros m' _ [= <-]. exact Hdir.
      * simpl. unfold FS.exists_. unfold FS.isdir in Hdir.
        by destruct (FS.stat m (cache_root home)) as [[]|].
    + pose proof (makedirs_raise _ _ _ _ Hmk) as [-> HOS].
      rewrite HOS. exists (set_fs (fs w) w). rewrite set_fs_same.
      rewrite Hex, Hmk, HOS, set_fs_same. repeat split; (done || congruence).
Qed.

End AtImport.

Lemma import_module_is_safe_witness :
  let w := World ∅ [] [] [] [] in
  fst (import_module Demo.home w) = Return tt /\
  FS.isdir (fs (snd (import_module Demo.home w))) "/home/u/.cache/gdown"
  = true.
Proof.
  intros w.
  destruct (import_module_is_safe Demo.home w)
    as (w' & Hrun & _ & Hdir & _).
  rewrite Hrun. split; [reflexivity|].
  apply (Hdir (snd (FS.makedirs (cache_root Demo.home) (fs w))));
    vm_compute; reflexivity.
Defined.
